(** * Home Assistant bridge: entity gateway and entity store

    A shallow embedding of the two halves of the application:

    - [Gateway] follows the companion-side [HomeAssistantAPI] object: its
      configuration, the three static lookup tables and the three remote
      operations [fetchEntity], [fetchApiStatus] and [changeEntity];
    - [Store] follows the device-side message handler of [app/index.js]
      together with the tile renderer it installs.

    Remote calls are asynchronous in the source.  Each operation awaits a
    single [fetch], so an operation is embedded as a function from the
    configuration, its arguments and the outcome of that one request to the
    ordered list of effects it performs. *)

From stdpp Require Import base strings list gmap.
From Stdlib Require Import Ascii String DecimalString.

#[local] Set Warnings "-clear-no-such-hyp".

Open Scope string_scope.
Open Scope list_scope.

(** ** JavaScript string primitives used by both sides *)

Module JS.

(** [s.split(sep)] for a one-character separator.  The result is never
    empty: a string without the separator is returned whole. *)
Fixpoint split (sep : ascii) (s : string) : list string :=
  match s with
  | EmptyString => [EmptyString]
  | String c rest =>
      if Ascii.eqb c sep then EmptyString :: split sep rest
      else match split sep rest with
           | h :: t => String c h :: t
           | [] => [String c EmptyString]
           end
  end.

(** [s.split(".")[0]] *)
Definition domain (s : string) : string :=
  match split "." s with
  | h :: _ => h
  | [] => EmptyString
  end.

(** [s.startsWith(p)] *)
Definition startsWith (s p : string) : bool := String.prefix p s.

(** Truthiness of a string value: only the empty string is falsy. *)
Definition truthy (s : string) : bool :=
  match s with
  | EmptyString => false
  | String _ _ => true
  end.

(** Template-literal rendering of a number such as [response.status]. *)
Definition number (n : nat) : string := NilZero.string_of_uint (Nat.to_uint n).

End JS.

(** ** Messages exchanged over the peer socket

    One constructor per value of the [key] field.  [Stringified m] is the
    result of [JSON.stringify] applied to the object [m]: a string, which
    has no [key] property on the receiving side. *)

Inductive message : Type :=
| Clear
| Add (id name state type : string)
| Change (id state : string)
| Api (value : string) (name : option string)
| Url (value : string)
| Port (value : string)
| Token (value : string)
| Force (value : bool)
| EntitiesList (value : option (list string))
| Stringified (m : message).

(** ** The entity gateway ([HomeAssistantAPI]) *)

Module Gateway.

(** The own properties of the three object literals.  A bracket lookup
    reads them through [get] below, which also finds what every object
    literal inherits from [Object.prototype]. *)
Definition Groups : gmap string string :=
  <["switch" := "switch"]> (<["light" := "light"]>
  (<["group" := "homeassistant"]> (<["script" := "script"]>
  (<["automation" := "automation"]> (<["button" := "button"]>
  (<["cover" := "cover"]> ∅)))))).

Definition NextStateOverrides : gmap string string :=
  <["script" := "turn_on"]> (<["automation" := "trigger"]>
  (<["button" := "press"]> ∅)).

Definition ForcedStates : gmap string string :=
  <["turn_on" := "on"]> (<["turn_off" := "off"]>
  (<["close_cover" := "closed"]> (<["open_cover" := "open"]> ∅))).

(** A value read from a table or held by the local [state] of
    [changeEntity]: a string, or a member inherited from [Object.prototype]
    (a function such as [constructor], or the prototype object itself for
    [__proto__]), named by the key it is found under. *)
Inductive jsval : Type :=
| Str (s : string)
| Inherited (member : string).

Coercion Str : string >-> jsval.

(** What depends on the JavaScript engine the companion runs on: which
    names an object literal inherits from [Object.prototype], and the text
    a template literal or a property key makes of such a member. *)
Class Engine : Type := {
  inherits : string → bool;
  memberText : string → string
}.

(** [table[key]]: an own property wins, then the prototype chain is
    searched; [None] stands for [undefined]. *)
Definition get `{Engine} (table : gmap string string) (key : string) : option jsval :=
  match table !! key with
  | Some v => Some (Str v)
  | None => if inherits key then Some (Inherited key) else None
  end.

(** Truthiness: the empty string is falsy, functions and objects are truthy. *)
Definition truthy (v : jsval) : bool :=
  match v with
  | Str s => JS.truthy s
  | Inherited _ => true
  end.

(** [v || fallback] *)
Definition orElse (v : option jsval) (fallback : jsval) : jsval :=
  match v with
  | Some x => if truthy x then x else fallback
  | None => fallback
  end.

(** Conversion to a string, as done for a property key and inside a
    template literal. *)
Definition text `{Engine} (v : jsval) : string :=
  match v with
  | Str s => s
  | Inherited m => memberText m
  end.

(** The objects the gateway hands to [sendData].  They have the fields of
    the messages above, except that the state of a "change" event is
    whatever [changeEntity] computed, string or not. *)
Inductive event : Type :=
| Add (id name state type : string)
| Change (id : string) (state : jsval)
| Api (value : string) (name : option string)
| Stringified (m : event).

(** The object's fields.  The constructor and every setter store a string
    (a boolean for [force]), so no field ever holds [undefined]. *)
Record Config : Type := mkConfig {
  url : string;
  port : string;
  token : string;
  force : bool
}.

(** [new HomeAssistantAPI()] *)
Definition HomeAssistantAPI : Config :=
  {| url := ""; port := ""; token := ""; force := false |}.

(** The [!== undefined] conjuncts of the source hold for every [Config];
    what remains is the comparison with the empty string. *)
Definition isValid (self : Config) : bool :=
  negb (String.eqb (url self) "") && negb (String.eqb (port self) "")
  && negb (String.eqb (token self) "").

(** Setters: [None] stands for an [undefined] argument. *)
Definition changeUrl (self : Config) (u : option string) : Config :=
  match u with
  | Some v => {| url := v; port := port self; token := token self; force := force self |}
  | None => {| url := "127.0.0.1"; port := port self; token := token self; force := force self |}
  end.

Definition changePort (self : Config) (p : option string) : Config :=
  match p with
  | Some v => {| url := url self; port := v; token := token self; force := force self |}
  | None => {| url := url self; port := "8123"; token := token self; force := force self |}
  end.

Definition changeToken (self : Config) (t : option string) : Config :=
  match t with
  | Some v => {| url := url self; port := port self; token := v; force := force self |}
  | None => {| url := url self; port := port self; token := ""; force := force self |}
  end.

Definition changeForce (self : Config) (f : option bool) : Config :=
  match f with
  | Some v => {| url := url self; port := port self; token := token self; force := v |}
  | None => {| url := url self; port := port self; token := token self; force := true |}
  end.

Definition setup (self : Config) (u p t : option string) (f : option bool) : Config :=
  changeForce (changeToken (changePort (changeUrl self u) p) t) f.

Definition address (self : Config) : string :=
  url self +:+ ":" +:+ port self.

Definition isExecutable (entity : string) : bool :=
  if negb (JS.startsWith entity "script") && negb (JS.startsWith entity "automation")
     && negb (JS.startsWith entity "button")
  then false
  else true.

(** *** Requests, responses and the effects of an operation *)

(** The arguments of a [fetch] call.  [payload] is the entity id wrapped by
    [JSON.stringify({entity_id: ...})], absent for a [GET]. *)
Record request : Type := mkRequest {
  method : string;
  target : string;
  authorization : string;
  content_type : string;
  payload : option string
}.

(** What the [catch] clause of an operation can receive. *)
Inductive js_error : Type :=
| FetchRejected (reason : string)
| JsonSyntaxError
| NotIterable.

Inductive log_entry : Type :=
| LogText (text : string)
| LogObject (m : event)
| LogError (prefix : string) (err : js_error).

Inductive effect : Type :=
| Fetch (r : request)
| SendData (m : event)
| ConsoleLog (l : log_entry).

(** The result of [await response.json()]. *)
Inductive body (A : Type) : Type :=
| Parsed (data : A)
| Unparsable.
Arguments Parsed {A} data.
Arguments Unparsable {A}.

(** The result of [await fetch(...)]: a rejected promise or a response
    with its status code and body. *)
Inductive outcome (A : Type) : Type :=
| Rejected (reason : string)
| Response (status : nat) (json : body A).
Arguments Rejected {A} reason.
Arguments Response {A} status json.

(** [response.ok]: the status is in the range 200-299. *)
Definition ok (status : nat) : bool :=
  Nat.leb 200 status && Nat.leb status 299.

(** Response bodies (section 6 of the interface description). *)
Record Attributes : Type := mkAttributes {
  friendly_name : option string
}.

Record EntityState : Type := mkEntityState {
  entity_id : string;
  state : string;
  attributes : option Attributes
}.

Record ServerConfig : Type := mkServerConfig {
  location_name : option string
}.

(** Body of a service call: an array of entity states, or some other
    JSON value. *)
Inductive ServiceData : Type :=
| DataArray (elements : list EntityState)
| DataOther.

(** The events handed to [sendData], in order. *)
Fixpoint emitted (trace : list effect) : list event :=
  match trace with
  | [] => []
  | SendData m :: rest => m :: emitted rest
  | _ :: rest => emitted rest
  end.

(** The requests handed to [fetch], in order. *)
Fixpoint requested (trace : list effect) : list request :=
  match trace with
  | [] => []
  | Fetch r :: rest => r :: requested rest
  | _ :: rest => requested rest
  end.

Definition bearer (self : Config) : string := "Bearer " +:+ token self.

(** Rendering of a looked-up table value inside a template literal. *)
Definition interpolate `{Engine} (v : option jsval) : string :=
  match v with
  | Some x => text x
  | None => "undefined"
  end.

Section Operations.

(** Imported from the platform ([i18n]) and from [common/utils], whose
    sources are not part of the gateway module. *)
Context {engine : Engine}.
Variable gettext : string -> string.
Variable isEmpty : ServiceData -> bool.

Definition fetchEntity (self : Config) (entity : string)
    (response : outcome EntityState) : list effect :=
  if isValid self then
    Fetch {| method := "GET";
             target := address self +:+ "/api/states/" +:+ entity;
             authorization := bearer self;
             content_type := "application/json";
             payload := None |} ::
    match response with
    | Rejected reason => [ConsoleLog (LogError "[fetchEntity]: " (FetchRejected reason))]
    | Response status json =>
        if ok status then
          match json with
          | Unparsable => [ConsoleLog (LogError "[fetchEntity]: " JsonSyntaxError)]
          | Parsed data =>
              let name :=
                match attributes data with
                | Some attrs =>
                    match friendly_name attrs with
                    | Some fn => if JS.truthy fn then fn else entity_id data
                    | None => entity_id data
                    end
                | None => entity_id data
                end in
              let st := if isExecutable (entity_id data) then "exe" else state data in
              let msgData := Add (entity_id data) name st (JS.domain (entity_id data)) in
              [ConsoleLog (LogObject msgData); SendData msgData]
          end
        else
          [ConsoleLog (LogText ("[fetchEntity] " +:+ gettext "error" +:+ " " +:+ JS.number status))]
    end
  else [].

Definition fetchApiStatus (self : Config) (response : outcome ServerConfig) : list effect :=
  if isValid self then
    Fetch {| method := "GET";
             target := address self +:+ "/api/config";
             authorization := bearer self;
             content_type := "application/json";
             payload := None |} ::
    match response with
    | Rejected reason =>
        [ConsoleLog (LogError "[fetchApiStatus]: " (FetchRejected reason));
         SendData (Api (gettext "connection_error") None)]
    | Response status json =>
        match json with
        | Unparsable =>
            [ConsoleLog (LogError "[fetchApiStatus]: " JsonSyntaxError);
             SendData (Api (gettext "connection_error") None)]
        | Parsed data =>
            if Nat.eqb status 200 then
              [SendData (Api "ok" (location_name data))]
            else
              [SendData (Stringified (Api (gettext "error" +:+ " " +:+ JS.number status) None))]
        end
    end
  else [].

(** The body of the [forEach] callback of the read-back branch. *)
Definition reportElement (entity : string) (element : EntityState) : list effect :=
  if String.eqb (entity_id element) entity then
    let msgData := Change (entity_id element) (state element) in
    if negb (isExecutable (entity_id element)) then [SendData msgData] else []
  else [].

Definition changeEntity (self : Config) (entity : string) (requested_state : string)
    (response : outcome ServiceData) : list effect :=
  if isValid self then
    let json := entity in
    let domain := JS.domain entity in
    let group := get Groups domain in
    let state := orElse (get NextStateOverrides domain) (Str requested_state) in
    Fetch {| method := "POST";
             target := address self +:+ "/api/services/" +:+ interpolate group +:+ "/"
                       +:+ text state;
             authorization := bearer self;
             content_type := "application/json";
             payload := Some json |} ::
    match response with
    | Rejected reason => [ConsoleLog (LogError "[changeEntity]: " (FetchRejected reason))]
    | Response status body =>
        if ok status then
          match body with
          | Unparsable => [ConsoleLog (LogError "[changeEntity]: " JsonSyntaxError)]
          | Parsed data =>
              if force self then
                let msgData := Change entity (orElse (get ForcedStates (text state)) state) in
                if negb (isExecutable entity) then [SendData msgData] else []
              else if negb (isEmpty data) then
                match data with
                | DataArray elements => flat_map (reportElement entity) elements
                | DataOther => [ConsoleLog (LogError "[changeEntity]: " NotIterable)]
                end
              else []
          end
        else
          [ConsoleLog (LogText ("[changeEntity] " +:+ gettext "error" +:+ " " +:+ JS.number status))]
    end
  else [].

End Operations.

(** The service call [POST {address}/api/services/{group}/{action}] with
    the entity id as payload. *)
Definition servicePost (self : Config) (group action entity : string) : request :=
  {| method := "POST";
     target := address self +:+ "/api/services/" +:+ group +:+ "/" +:+ action;
     authorization := bearer self;
     content_type := "application/json";
     payload := Some entity |}.

(** [data.attributes.friendly_name] when the response has both, read
    without the truthiness test of [fetchEntity]. *)
Definition friendly (data : EntityState) : option string :=
  match attributes data with
  | Some attrs => friendly_name attrs
  | None => None
  end.

(** The configuration documented as the default one. *)
Definition defaults : Config :=
  {| url := "127.0.0.1"; port := "8123"; token := ""; force := true |}.

End Gateway.

(** ** The entity store and renderer ([app/index.js]) *)

Module Store.

(** The settings object: the record read from the settings file, or the
    fallback literal of [loadSettings], which has no [entities] field.
    A persisted entity [{name: id}] is represented by its [name]. *)
Record Settings : Type := mkSettings {
  url : string;
  port : string;
  token : string;
  force : bool;
  entities : option (list string)
}.

(** An element of the [Entities] array. *)
Record Entity : Type := mkEntity {
  id : string;
  name : string;
  state : string
}.

(** An element of the [Categories] array: a category string pushed by the
    tile renderer, or an [{id: ...}] object pushed by the message handler. *)
Inductive category : Type :=
| CategoryName (label : string)
| CategoryId (id : string).

#[global] Instance category_eq_dec : EqDecision category.
Proof. solve_decision. Defined.

(** The array the delegate of [EntityList] closes over.  [setupList] binds
    it to the array [Entities] refers to at that moment; a later
    [Entities = []] leaves the delegate with the previous array. *)
Inductive binding : Type :=
| Unbound
| BoundCurrent
| BoundStale (data : list Entity).

Record State : Type := mkState {
  Available : bool;
  AddressText : option string;
  settings : Settings;
  Categories : list category;
  Entities : list Entity;
  listData : binding;
  listLength : nat;
  outbox : list message
}.

(** What [getTileInfo] returns. *)
Record TileInfo : Type := mkTileInfo {
  type : string;
  category_of : string;
  tile_name : string;
  tile_state : string;
  index : nat
}.

(** The texts [configureTile] assigns to a tile; [itemCategory] is [None]
    when the call leaves the category label of the tile alone. *)
Record Tile : Type := mkTile {
  itemText : string;
  itemState : string;
  itemCategory : option string
}.

Definition loadSettings (file : option Settings) : Settings :=
  match file with
  | Some s => s
  | None => {| url := "localhost"; port := "8123"; token := ""; force := true;
               entities := None |}
  end.

Definition with_entities (s : Settings) (l : option (list string)) : Settings :=
  {| url := url s; port := port s; token := token s; force := force s; entities := l |}.

Definition with_url (s : Settings) (v : string) : Settings :=
  {| url := v; port := port s; token := token s; force := force s; entities := entities s |}.

Definition with_port (s : Settings) (v : string) : Settings :=
  {| url := url s; port := v; token := token s; force := force s; entities := entities s |}.

Definition with_token (s : Settings) (v : string) : Settings :=
  {| url := url s; port := port s; token := v; force := force s; entities := entities s |}.

Definition with_force (s : Settings) (v : bool) : Settings :=
  {| url := url s; port := port s; token := token s; force := v; entities := entities s |}.

(** [sendData(m)] *)
Definition sendData (st : State) (m : message) : State :=
  {| Available := Available st; AddressText := AddressText st; settings := settings st;
     Categories := Categories st; Entities := Entities st; listData := listData st;
     listLength := listLength st; outbox := outbox st ++ [m] |}.

Definition set_settings (st : State) (s : Settings) : State :=
  {| Available := Available st; AddressText := AddressText st; settings := s;
     Categories := Categories st; Entities := Entities st; listData := listData st;
     listLength := listLength st; outbox := outbox st |}.

Definition set_Categories (st : State) (cs : list category) : State :=
  {| Available := Available st; AddressText := AddressText st; settings := settings st;
     Categories := cs; Entities := Entities st; listData := listData st;
     listLength := listLength st; outbox := outbox st |}.

(** In-place mutation of the array [Entities] refers to: a delegate bound
    to that array sees the change. *)
Definition mutate_Entities (st : State) (es : list Entity) : State :=
  {| Available := Available st; AddressText := AddressText st; settings := settings st;
     Categories := Categories st; Entities := es; listData := listData st;
     listLength := listLength st; outbox := outbox st |}.

(** [Entities = []]: a fresh array; a delegate bound to the old one keeps
    the old contents. *)
Definition reset_Entities (st : State) : State :=
  {| Available := Available st; AddressText := AddressText st; settings := settings st;
     Categories := Categories st; Entities := [];
     listData := match listData st with
                 | BoundCurrent => BoundStale (Entities st)
                 | b => b
                 end;
     listLength := listLength st; outbox := outbox st |}.

Definition set_api (st : State) (available : bool) (text : option string) : State :=
  {| Available := available; AddressText := text; settings := settings st;
     Categories := Categories st; Entities := Entities st; listData := listData st;
     listLength := listLength st; outbox := outbox st |}.

(** [setupList(EntityList, Entities)] *)
Definition setupList (st : State) : State :=
  {| Available := Available st; AddressText := AddressText st; settings := settings st;
     Categories := Categories st; Entities := Entities st; listData := BoundCurrent;
     listLength := List.length (Entities st); outbox := outbox st |}.

(** The array the delegate reads. *)
Definition data (st : State) : list Entity :=
  match listData st with
  | Unbound => []
  | BoundCurrent => Entities st
  | BoundStale old => old
  end.

Definition getTileInfo (d : list Entity) (i : nat) : option TileInfo :=
  match d !! i with
  | Some e => Some {| type := "item-pool"; category_of := JS.domain (id e);
                      tile_name := name e; tile_state := state e; index := i |}
  | None => None
  end.

(** The [for] loop of [configureTile]: strict equality of an array element
    with the category string; an [{id}] object is never equal to a string. *)
Fixpoint categoryExists (cs : list category) (c : string) : bool :=
  match cs with
  | [] => false
  | CategoryName label :: rest => if String.eqb label c then true else categoryExists rest c
  | CategoryId _ :: rest => categoryExists rest c
  end.

Section Handlers.

Variable gettext : string -> string.

Definition configureTile (st : State) (info : TileInfo) : State * option Tile :=
  if String.eqb (type info) "item-pool" then
    if negb (categoryExists (Categories st) (category_of info)) then
      (set_Categories st (Categories st ++ [CategoryName (category_of info)]),
       Some {| itemText := tile_name info; itemState := gettext (tile_state info);
               itemCategory := Some (category_of info) |})
    else
      (st, Some {| itemText := tile_name info; itemState := gettext (tile_state info);
                   itemCategory := None |})
  else (st, None).

(** The platform renders the tile at position [i] of the bound list. *)
Definition renderTile (st : State) (i : nat) : State :=
  if Nat.ltb i (listLength st) then
    match getTileInfo (data st) i with
    | Some info => fst (configureTile st info)
    | None => st
    end
  else st.

(** The body of the [forEach] of the "change" branch, one element at a time. *)
Definition updateState (target new_state : string) (e : Entity) : Entity :=
  if String.eqb (id e) target then {| id := id e; name := name e; state := new_state |} else e.

Definition onmessage (st : State) (evt : message) : State :=
  match evt with
  | Clear =>
      set_settings (reset_Entities st) (with_entities (settings st) (Some []))
  | Add i n s _ =>
      let st1 := mutate_Entities st (Entities st ++ [{| id := i; name := n; state := s |}]) in
      match entities (settings st1) with
      | None => st1
      | Some persisted =>
          let st2 := set_settings st1 (with_entities (settings st1) (Some (persisted ++ [i]))) in
          let st3 := setupList st2 in
          set_Categories st3 (Categories st3 ++ [CategoryId i])
      end
  | Change i s =>
      let st1 := mutate_Entities st (map (updateState i s) (Entities st)) in
      if existsb (fun e => String.eqb (id e) i) (Entities st) then setupList st1 else st1
  | Api value nm =>
      if String.eqb value "ok" then set_api st true nm else set_api st false (Some value)
  | Url value =>
      let st1 := set_settings st (with_url (settings st) value) in
      sendData st1 (Url (url (settings st1)))
  | Port value =>
      let st1 := set_settings st (with_port (settings st) value) in
      sendData st1 (Port (port (settings st1)))
  | Token value =>
      let st1 := set_settings st (with_token (settings st) value) in
      sendData st1 (Token (token (settings st1)))
  | Force value =>
      let st1 := set_settings st (with_force (settings st) value) in
      sendData st1 (Force (force (settings st1)))
  | EntitiesList _ => st
  | Stringified _ => st
  end.

(** Module initialisation. *)
Definition start (file : option Settings) : State :=
  {| Available := false; AddressText := Some (gettext "unavailable");
     settings := loadSettings file; Categories := []; Entities := [];
     listData := Unbound; listLength := 0; outbox := [] |}.

(** What the platform can do to the store: deliver a message, or ask the
    delegate to configure the tile at some position. *)
Inductive action : Type :=
| Deliver (evt : message)
| Render (i : nat).

Definition step (st : State) (a : action) : State :=
  match a with
  | Deliver evt => onmessage st evt
  | Render i => renderTile st i
  end.

Definition run (st : State) (actions : list action) : State :=
  fold_left step actions st.

End Handlers.

(** The domain prefix an element of [Categories] stands for. *)
Definition categoryPrefix (c : category) : string :=
  match c with
  | CategoryName label => label
  | CategoryId i => JS.domain i
  end.

(** The category strings recorded in a [Categories] array, in order. *)
Fixpoint categoryNames (cs : list category) : list string :=
  match cs with
  | [] => []
  | CategoryName label :: rest => label :: categoryNames rest
  | CategoryId _ :: rest => categoryNames rest
  end.

End Store.

(** ** Notions used to state properties across both sides *)

Module Link.

(** [s.includes(c)] for a one-character [c]. *)
Fixpoint contains (c : ascii) (s : string) : bool :=
  match s with
  | EmptyString => false
  | String x rest => if Ascii.eqb x c then true else contains c rest
  end.

(** The request came back with a status in 200-299 and a body that parses. *)
Definition succeeded {A : Type} (r : Gateway.outcome A) : bool :=
  match r with
  | Gateway.Response status (Gateway.Parsed _) => Gateway.ok status
  | _ => false
  end.

(** The request produced no parsed body: the promise was rejected or
    [response.json()] threw. *)
Definition bodiless {A : Type} (r : Gateway.outcome A) : bool :=
  match r with
  | Gateway.Response _ (Gateway.Parsed _) => false
  | _ => true
  end.

(** The message an event of the gateway arrives as: the object with the
    same fields.  A "change" event whose state is not a string has no
    counterpart among the messages of the store: what the socket makes of
    a function is outside the model. *)
Fixpoint encode (e : Gateway.event) : option message :=
  match e with
  | Gateway.Add i n s t => Some (Add i n s t)
  | Gateway.Change i (Gateway.Str s) => Some (Change i s)
  | Gateway.Change i (Gateway.Inherited _) => None
  | Gateway.Api v n => Some (Api v n)
  | Gateway.Stringified m =>
      match encode m with
      | Some m' => Some (Stringified m')
      | None => None
      end
  end.

(** The events of the gateway arrive at the store in emission order; an
    event without a counterpart is left out. *)
Definition deliver (events : list Gateway.event) : list Store.action :=
  map Store.Deliver (omap encode events).

(** The configuration messages among the delivered ones, in order: the
    messages whose key is url, port, token or force. *)
Fixpoint configMessages (actions : list Store.action) : list message :=
  match actions with
  | [] => []
  | Store.Deliver (Url v) :: rest => Url v :: configMessages rest
  | Store.Deliver (Port v) :: rest => Port v :: configMessages rest
  | Store.Deliver (Token v) :: rest => Token v :: configMessages rest
  | Store.Deliver (Force v) :: rest => Force v :: configMessages rest
  | _ :: rest => configMessages rest
  end.

End Link.

(** ** A concrete environment for the worked examples *)

Module Sample.

Definition gettext (key : string) : string := key.

Definition isEmpty (d : Gateway.ServiceData) : bool :=
  match d with
  | Gateway.DataArray [] => true
  | Gateway.DataArray (_ :: _) => false
  | Gateway.DataOther => false
  end.

(** The members of [Object.prototype] in ECMAScript, Annex B included. *)
Definition ObjectPrototype : list string :=
  ["constructor"; "hasOwnProperty"; "isPrototypeOf"; "propertyIsEnumerable";
   "toLocaleString"; "toString"; "valueOf"; "__proto__"; "__defineGetter__";
   "__defineSetter__"; "__lookupGetter__"; "__lookupSetter__"].

(** An engine that prints built-in functions the way V8 does. *)
Definition engine : Gateway.Engine :=
  {| Gateway.inherits key := bool_decide (key ∈ ObjectPrototype);
     Gateway.memberText m :=
       if String.eqb m "__proto__" then "[object Object]"
       else if String.eqb m "constructor" then "function Object() { [native code] }"
       else "function " +:+ m +:+ "() { [native code] }" |}.

Definition forced : Gateway.Config :=
  {| Gateway.url := "http://192.168.1.10"; Gateway.port := "8123";
     Gateway.token := "secret"; Gateway.force := true |}.

Definition readback : Gateway.Config :=
  {| Gateway.url := "http://192.168.1.10"; Gateway.port := "8123";
     Gateway.token := "secret"; Gateway.force := false |}.

End Sample.

(** * Properties *)

(** ** String primitives *)

Lemma split_cons (sep : ascii) (s : string) :
  ∃ h t, JS.split sep s = h :: t.
Proof.
  induction s as [|c rest IH]; simpl.
  - eauto.
  - destruct (Ascii.eqb c sep); [eauto|].
    destruct IH as (h & t & ->). eauto.
Qed.

(** The domain of an id is a prefix of the id. *)
Lemma domain_prefix (s : string) : String.prefix (JS.domain s) s = true.
Proof.
  unfold JS.domain.
  induction s as [|c rest IH]; simpl; [done|].
  destruct (Ascii.eqb c ".") eqn:Hc; [done|].
  destruct (split_cons "." rest) as (h & t & Hs).
  rewrite Hs in IH |- *. simpl.
  destruct (ascii_dec c c); [done | congruence].
Qed.

Lemma startsWith_domain (s d : string) : JS.domain s = d → JS.startsWith s d = true.
Proof. intros <-. apply domain_prefix. Qed.

(** ** The static tables *)

Lemma NextStateOverrides_Some (d v : string) :
  Gateway.NextStateOverrides !! d = Some v →
  (d = "script" ∧ v = "turn_on") ∨ (d = "automation" ∧ v = "trigger")
  ∨ (d = "button" ∧ v = "press").
Proof.
  unfold Gateway.NextStateOverrides.
  rewrite !lookup_insert_Some, lookup_empty. naive_solver.
Qed.

Lemma ForcedStates_Some (a v : string) :
  Gateway.ForcedStates !! a = Some v →
  (a = "turn_on" ∧ v = "on") ∨ (a = "turn_off" ∧ v = "off")
  ∨ (a = "close_cover" ∧ v = "closed") ∨ (a = "open_cover" ∧ v = "open").
Proof.
  unfold Gateway.ForcedStates.
  rewrite !lookup_insert_Some, lookup_empty. naive_solver.
Qed.

Lemma isExecutable_spec (entity : string) :
  Gateway.isExecutable entity = true ↔
  JS.startsWith entity "script" = true ∨ JS.startsWith entity "automation" = true
  ∨ JS.startsWith entity "button" = true.
Proof.
  unfold Gateway.isExecutable.
  destruct (JS.startsWith entity "script"), (JS.startsWith entity "automation"),
    (JS.startsWith entity "button"); simpl; naive_solver.
Qed.

(** An id whose domain is an own key of [NextStateOverrides] is executable;
    read backwards, the domain of a non-executable id is no own key of the
    table. *)
Lemma override_isExecutable (entity v : string) :
  Gateway.NextStateOverrides !! JS.domain entity = Some v →
  Gateway.isExecutable entity = true.
Proof.
  intros H. apply NextStateOverrides_Some in H. apply isExecutable_spec.
  destruct H as [[H _]|[[H _]|[H _]]]; apply startsWith_domain in H; auto.
Qed.

Lemma not_executable_no_override (entity : string) :
  Gateway.isExecutable entity = false →
  Gateway.NextStateOverrides !! JS.domain entity = None.
Proof.
  intros H. destruct (Gateway.NextStateOverrides !! JS.domain entity) eqn:Hd; [|done].
  apply override_isExecutable in Hd. congruence.
Qed.

(** ** Bracket lookups *)

Section Lookups.

Import Gateway.

Context {engine : Engine}.

Lemma get_own (table : gmap string string) (key v : string) :
  table !! key = Some v → get table key = Some (Str v).
Proof. intros Hk. unfold get. by rewrite Hk. Qed.

Lemma get_inherited (table : gmap string string) (key : string) :
  table !! key = None → inherits key = true → get table key = Some (Inherited key).
Proof. intros Hk Hi. unfold get. by rewrite Hk, Hi. Qed.

Lemma get_undefined (table : gmap string string) (key : string) :
  table !! key = None → inherits key = false → get table key = None.
Proof. intros Hk Hi. unfold get. by rewrite Hk, Hi. Qed.

(** For a key that names no inherited member, [ForcedStates[a] || a] is the
    table entry, or [a] itself when there is none. *)
Lemma forced_state_plain (a : string) :
  inherits a = false →
  orElse (get ForcedStates a) (Str a) = Str (default a (ForcedStates !! a)).
Proof.
  intros Hi. unfold get. rewrite Hi.
  destruct (ForcedStates !! a) as [v|] eqn:Hv; simpl; [|done].
  apply ForcedStates_Some in Hv. naive_solver.
Qed.

End Lookups.

(** ** The gateway *)

Section GatewayProperties.

Import Gateway.

Context {engine : Engine}.
Variable gettext : string → string.
Variable isEmpty : ServiceData → bool.

Lemma isValid_true (self : Config) :
  isValid self = true ↔ url self ≠ "" ∧ port self ≠ "" ∧ token self ≠ "".
Proof.
  unfold isValid. rewrite !andb_true_iff, !negb_true_iff, !String.eqb_neq. tauto.
Qed.

Lemma isValid_false (self : Config) :
  isValid self = false ↔ url self = "" ∨ port self = "" ∨ token self = "".
Proof.
  unfold isValid. rewrite !andb_false_iff, !negb_false_iff, !String.eqb_eq. tauto.
Qed.

Lemma emitted_app (t1 t2 : list effect) : emitted (t1 ++ t2) = emitted t1 ++ emitted t2.
Proof.
  induction t1 as [|e t1 IH]; simpl; [done|].
  destruct e; simpl; by rewrite ?IH.
Qed.

Lemma requested_reportElement (entity : string) (elements : list EntityState) :
  requested (flat_map (reportElement entity) elements) = [].
Proof.
  induction elements as [|e l IH]; simpl; [done|].
  unfold reportElement at 1.
  destruct (String.eqb (entity_id e) entity); simpl; [|done].
  by destruct (isExecutable (entity_id e)).
Qed.

(** A configured gateway issues exactly one request per [changeEntity]:
    the service call for the group of the id's domain, with the override
    of that domain when it has one and the caller's action otherwise. *)
Lemma changeEntity_requested (self : Config) (entity a : string) (r : outcome ServiceData) :
  isValid self = true →
  requested (changeEntity gettext isEmpty self entity a r)
  = [servicePost self (interpolate (get Groups (JS.domain entity)))
       (text (orElse (get NextStateOverrides (JS.domain entity)) (Str a))) entity].
Proof.
  intros Hv. unfold changeEntity, servicePost. rewrite Hv. simpl. f_equal.
  destruct r as [reason|status [data|]]; simpl; [done | | ];
    destruct (ok status); simpl; try done.
  destruct (force self); simpl.
  - by destruct (isExecutable entity).
  - destruct (isEmpty data); simpl; [done|].
    destruct data as [elements|]; simpl; [|done].
    apply requested_reportElement.
Qed.

(** C1 (amended): whatever action the caller asks for, [changeEntity] on an
    id whose domain is script sends the fixed action "turn_on", on an
    automation "trigger" and on a button "press". *)
Theorem changeEntity_sends_override (self : Config) (entity a : string)
    (r : outcome ServiceData) :
  isValid self = true →
  (JS.domain entity = "script" →
     requested (changeEntity gettext isEmpty self entity a r)
     = [servicePost self "script" "turn_on" entity])
  ∧ (JS.domain entity = "automation" →
     requested (changeEntity gettext isEmpty self entity a r)
     = [servicePost self "automation" "trigger" entity])
  ∧ (JS.domain entity = "button" →
     requested (changeEntity gettext isEmpty self entity a r)
     = [servicePost self "button" "press" entity]).
Proof.
  intros Hv. repeat split; intros Hd; rewrite changeEntity_requested by done;
    by rewrite Hd.
Qed.

(** C2: when url, port or token is the empty string the configuration is
    not valid and [fetchEntity], [fetchApiStatus] and [changeEntity]
    perform no effect at all: no request, no event, no log entry.
    Conversely the configuration is valid as soon as the three fields are
    non-empty. *)
Theorem unconfigured_gateway_is_inert (self : Config) :
  (url self = "" ∨ port self = "" ∨ token self = "" →
     isValid self = false
     ∧ (∀ entity r, fetchEntity gettext self entity r = [])
     ∧ (∀ r, fetchApiStatus gettext self r = [])
     ∧ (∀ entity a r, changeEntity gettext isEmpty self entity a r = []))
  ∧ (url self ≠ "" → port self ≠ "" → token self ≠ "" → isValid self = true).
Proof.
  split.
  - intros H. apply isValid_false in H.
    unfold fetchEntity, fetchApiStatus, changeEntity. by rewrite H.
  - intros. by apply isValid_true.
Qed.

(** C4: in read-back mode a successful [changeEntity] emits, in response
    order, one "change" event with the server-reported state for every
    element of the response array whose [entity_id] is the target id, and
    nothing for the other elements; for an executable target it emits
    nothing. *)
Theorem changeEntity_readback_emits_matching (self : Config) (entity a : string)
    (status : nat) (elements : list EntityState) :
  (∀ l, l ≠ [] → isEmpty (DataArray l) = false) →
  isValid self = true → force self = false → ok status = true →
  emitted (changeEntity gettext isEmpty self entity a
             (Response status (Parsed (DataArray elements))))
  = if isExecutable entity then []
    else (λ e, Change entity (state e)) <$> filter (λ e, entity_id e = entity) elements.
Proof.
  intros He Hv Hf Hok. unfold changeEntity. rewrite Hv, Hf, Hok. simpl.
  destruct (isEmpty (DataArray elements)) eqn:Hempty; simpl.
  - destruct elements as [|e l]; [by destruct (isExecutable entity)|].
    rewrite He in Hempty; done.
  - clear Hempty. induction elements as [|e l IH]; simpl.
    + by destruct (isExecutable entity).
    + rewrite emitted_app, IH. unfold reportElement. rewrite filter_cons.
      destruct (String.eqb_spec (entity_id e) entity) as [Heq|Hne].
      * rewrite decide_True by done. rewrite Heq.
        by destruct (isExecutable entity).
      * rewrite decide_False by done. done.
Qed.

(** C5: [isExecutable] holds exactly for the ids that begin with "script",
    "automation" or "button"; in particular it holds for every id whose
    domain is one of the three, and for such an id [changeEntity] in force
    mode emits no event, whatever the outcome of the request. *)
Theorem executable_never_reported_in_force_mode (entity : string) :
  (isExecutable entity = true ↔
     JS.startsWith entity "script" = true ∨ JS.startsWith entity "automation" = true
     ∨ JS.startsWith entity "button" = true)
  ∧ (JS.domain entity = "script" ∨ JS.domain entity = "automation"
     ∨ JS.domain entity = "button" →
     isExecutable entity = true
     ∧ ∀ self a r, force self = true →
         emitted (changeEntity gettext isEmpty self entity a r) = []).
Proof.
  split; [apply isExecutable_spec|].
  intros Hd.
  assert (isExecutable entity = true) as Hx.
  { apply isExecutable_spec.
    destruct Hd as [H|[H|H]]; apply startsWith_domain in H; auto. }
  split; [done|]. intros self a r Hf. unfold changeEntity.
  destruct (isValid self); [|done]. simpl.
  destruct r as [reason|status [data|]]; simpl; [done | | ];
    destruct (ok status); simpl; try done.
  by rewrite Hf, Hx.
Qed.

(** C6: [setup] called with four [undefined] arguments yields the default
    configuration from any prior one; each setter stores its default when
    given [undefined] and the given value otherwise, and leaves the other
    fields alone. *)
Theorem setup_undefined_yields_defaults (self : Config) :
  setup self None None None None = defaults
  ∧ changeUrl self None = mkConfig "127.0.0.1" (port self) (token self) (force self)
  ∧ changePort self None = mkConfig (url self) "8123" (token self) (force self)
  ∧ changeToken self None = mkConfig (url self) (port self) "" (force self)
  ∧ changeForce self None = mkConfig (url self) (port self) (token self) true
  ∧ (∀ v, changeUrl self (Some v) = mkConfig v (port self) (token self) (force self))
  ∧ (∀ v, changePort self (Some v) = mkConfig (url self) v (token self) (force self))
  ∧ (∀ v, changeToken self (Some v) = mkConfig (url self) (port self) v (force self))
  ∧ (∀ v, changeForce self (Some v) = mkConfig (url self) (port self) (token self) v)
  ∧ (∀ u p t f, setup self (Some u) (Some p) (Some t) (Some f) = mkConfig u p t f).
Proof. repeat split. Qed.

(** C7 (amended): a newly created object holds the empty string in url,
    port and token and [false] in force, so it is not a valid
    configuration; the documented defaults are what [setup] installs when
    it is called on it with [undefined] arguments. *)
Theorem new_object_is_blank :
  HomeAssistantAPI = mkConfig "" "" "" false
  ∧ isValid HomeAssistantAPI = false
  ∧ setup HomeAssistantAPI None None None None = defaults.
Proof. repeat split. Qed.

(** C8 (amended): on a successful [fetchEntity] response exactly one "add"
    record is emitted.  Its name is the friendly name when the response
    carries a non-empty one and the entity id otherwise.  Its state is
    "exe" when the id begins with "script", "automation" or "button", which
    covers every id whose domain is one of the three, and the
    server-reported state otherwise. *)
Theorem fetchEntity_add_record (self : Config) (entity : string) (status : nat)
    (data : EntityState) :
  isValid self = true → ok status = true →
  ∃ nm st,
    emitted (fetchEntity gettext self entity (Response status (Parsed data)))
    = [Add (entity_id data) nm st (JS.domain (entity_id data))]
    ∧ (∀ fn, friendly data = Some fn → fn ≠ "" → nm = fn)
    ∧ (friendly data = None ∨ friendly data = Some "" → nm = entity_id data)
    ∧ (JS.startsWith (entity_id data) "script" = true
       ∨ JS.startsWith (entity_id data) "automation" = true
       ∨ JS.startsWith (entity_id data) "button" = true → st = "exe")
    ∧ (JS.domain (entity_id data) = "script" ∨ JS.domain (entity_id data) = "automation"
       ∨ JS.domain (entity_id data) = "button" → st = "exe")
    ∧ (JS.startsWith (entity_id data) "script" = false →
       JS.startsWith (entity_id data) "automation" = false →
       JS.startsWith (entity_id data) "button" = false → st = state data).
Proof.
  intros Hv Hok. unfold fetchEntity. rewrite Hv, Hok. simpl.
  eexists _, _. split; [reflexivity|].
  assert (JS.startsWith (entity_id data) "script" = true
       ∨ JS.startsWith (entity_id data) "automation" = true
       ∨ JS.startsWith (entity_id data) "button" = true →
       (if isExecutable (entity_id data) then "exe" else state data) = "exe") as Hexe.
  { intros H. apply isExecutable_spec in H. by rewrite H. }
  unfold friendly. repeat split.
  - intros fn Hfn Hne. destruct (attributes data) as [attrs|]; [|done].
    rewrite Hfn. destruct fn; [done|]. done.
  - intros [H|H]; destruct (attributes data) as [attrs|]; try done; by rewrite H.
  - apply Hexe.
  - intros Hd. apply Hexe.
    destruct Hd as [H|[H|H]]; apply startsWith_domain in H; auto.
  - intros H1 H2 H3. unfold isExecutable. by rewrite H1, H2, H3.
Qed.

End GatewayProperties.

(** ** The store *)

Section StoreProperties.

Import Store.

Variable gettext : string → string.

Lemma categoryNames_app (cs1 cs2 : list category) :
  categoryNames (cs1 ++ cs2) = categoryNames cs1 ++ categoryNames cs2.
Proof.
  induction cs1 as [|c cs1 IH]; simpl; [done|].
  destruct c; simpl; by rewrite IH.
Qed.

(** The scan of [configureTile] decides membership among the recorded
    category strings. *)
Lemma categoryExists_spec (cs : list category) (c : string) :
  categoryExists cs c = true ↔ c ∈ categoryNames cs.
Proof.
  induction cs as [|x cs IH]; simpl.
  - split; [done|]. by intros ?%elem_of_nil.
  - destruct x as [label|i]; simpl; [|done].
    rewrite elem_of_cons. destruct (String.eqb_spec label c) as [->|Hne].
    + naive_solver.
    + rewrite IH. naive_solver.
Qed.

Lemma categoryExists_elem (cs : list category) (c : string) :
  categoryExists cs c = true ↔ CategoryName c ∈ cs.
Proof.
  induction cs as [|x cs IH]; simpl.
  - split; [done|]. by intros ?%elem_of_nil.
  - rewrite elem_of_cons. destruct x as [label|i]; simpl.
    + destruct (String.eqb_spec label c) as [->|Hne]; [naive_solver|].
      rewrite IH. naive_solver.
    + rewrite IH. naive_solver.
Qed.

(** What [configureTile] does to the category list. *)
Lemma configureTile_Categories (st : State) (info : TileInfo) :
  type info = "item-pool" →
  Categories (fst (configureTile gettext st info))
  = if decide (CategoryName (category_of info) ∈ Categories st) then Categories st
    else Categories st ++ [CategoryName (category_of info)].
Proof.
  intros Ht. unfold configureTile. rewrite Ht. simpl.
  destruct (categoryExists (Categories st) (category_of info)) eqn:Hc; simpl.
  - apply categoryExists_elem in Hc. by rewrite decide_True.
  - rewrite decide_False; [done|]. intros H%categoryExists_elem. congruence.
Qed.

Lemma configureTile_unique (st : State) (info : TileInfo) :
  NoDup (categoryNames (Categories st)) →
  NoDup (categoryNames (Categories (fst (configureTile gettext st info)))).
Proof.
  intros Hnd. unfold configureTile.
  destruct (String.eqb (type info) "item-pool"); [|done].
  destruct (categoryExists (Categories st) (category_of info)) eqn:Hc; simpl; [done|].
  rewrite categoryNames_app. simpl. apply NoDup_app. split; [done|]. split.
  - intros x Hx ->%list_elem_of_singleton.
    apply categoryExists_spec in Hx. congruence.
  - apply NoDup_singleton.
Qed.

(** A message never adds a category string: the "add" branch appends an
    [{id}] object, the other branches leave the array alone. *)
Lemma onmessage_categoryNames (st : State) (evt : message) :
  categoryNames (Categories (onmessage st evt)) = categoryNames (Categories st).
Proof.
  destruct evt; simpl; try done.
  - destruct (entities (settings st)); simpl; [|done].
    rewrite categoryNames_app. simpl. by rewrite app_nil_r.
  - by destruct (existsb _ _).
  - by destruct (String.eqb _ _).
Qed.

Lemma step_unique (st : State) (a : action) :
  NoDup (categoryNames (Categories st)) →
  NoDup (categoryNames (Categories (step gettext st a))).
Proof.
  intros Hnd. destruct a as [evt|i]; simpl.
  - by rewrite onmessage_categoryNames.
  - unfold renderTile. destruct (Nat.ltb i (listLength st)); [|done].
    destruct (getTileInfo (data st) i); [|done]. by apply configureTile_unique.
Qed.

Lemma run_unique (st : State) (actions : list action) :
  NoDup (categoryNames (Categories st)) →
  NoDup (categoryNames (Categories (run gettext st actions))).
Proof.
  revert st. induction actions as [|a actions IH]; intros st Hnd; simpl; [done|].
  apply IH. by apply step_unique.
Qed.

(** C9 (amended): when the persisted list exists, an "add" event appends
    the entity record and its persisted equivalent, and adds no category
    string to the category list.  The category of an entity, its domain
    prefix, is recorded by the tile renderer when it configures the tile of
    that entity, and only when the linear scan of the category list finds
    no equal string; after the tile has been configured the prefix is in
    the list.  Hence, from start-up and across every sequence of messages
    and renderings, the category list never holds the same domain-prefix
    string twice. *)
Theorem category_strings_stay_unique :
  (∀ st i n s t persisted,
      entities (settings st) = Some persisted →
      Entities (onmessage st (Add i n s t)) = Entities st ++ [mkEntity i n s]
      ∧ entities (settings (onmessage st (Add i n s t))) = Some (persisted ++ [i])
      ∧ categoryNames (Categories (onmessage st (Add i n s t)))
        = categoryNames (Categories st))
  ∧ (∀ st d i info,
      getTileInfo d i = Some info →
      category_of info ∈ JS.domain <$> (id <$> d)
      ∧ Categories (fst (configureTile gettext st info))
        = if decide (CategoryName (category_of info) ∈ Categories st) then Categories st
          else Categories st ++ [CategoryName (category_of info)])
  ∧ (∀ st i e,
      i < listLength st → data st !! i = Some e →
      JS.domain (id e) ∈ categoryNames (Categories (renderTile gettext st i)))
  ∧ (∀ file actions,
      NoDup (categoryNames (Categories (run gettext (start gettext file) actions)))).
Proof.
  split; [|split; [|split]].
  - intros st i n s t persisted Hp. simpl. rewrite Hp. simpl.
    rewrite categoryNames_app. simpl. by rewrite app_nil_r.
  - intros st d i info Hinfo. unfold getTileInfo in Hinfo.
    destruct (d !! i) as [e|] eqn:He; [|done]. injection Hinfo as <-. split.
    + simpl. apply list_elem_of_fmap. exists (id e). split; [done|].
      apply list_elem_of_fmap. exists e. split; [done|].
      by apply list_elem_of_lookup_2 in He.
    + by apply configureTile_Categories.
  - intros st i e Hi He. unfold renderTile, getTileInfo.
    apply Nat.ltb_lt in Hi. rewrite Hi, He. unfold configureTile. simpl.
    destruct (categoryExists (Categories st) (JS.domain (id e))) eqn:Hc; simpl.
    + by apply categoryExists_spec.
    + rewrite categoryNames_app. simpl. apply elem_of_app. right.
      by apply list_elem_of_singleton.
  - intros file actions. apply run_unique. simpl. apply NoDup_nil_2.
Qed.

(** C10: a "clear" event empties the entity list and the persisted entity
    list and changes nothing else: the category list, the connectivity
    flag, the address text, the other settings, the outbox and what the
    list delegate shows are the ones from before the event. *)
Theorem clear_keeps_categories (st : State) :
  Entities (onmessage st Clear) = []
  ∧ entities (settings (onmessage st Clear)) = Some []
  ∧ Categories (onmessage st Clear) = Categories st
  ∧ Available (onmessage st Clear) = Available st
  ∧ AddressText (onmessage st Clear) = AddressText st
  ∧ url (settings (onmessage st Clear)) = url (settings st)
  ∧ port (settings (onmessage st Clear)) = port (settings st)
  ∧ token (settings (onmessage st Clear)) = token (settings st)
  ∧ force (settings (onmessage st Clear)) = force (settings st)
  ∧ outbox (onmessage st Clear) = outbox st
  ∧ data (onmessage st Clear) = data st
  ∧ listLength (onmessage st Clear) = listLength st.
Proof.
  repeat split. unfold data. simpl. by destruct (listData st).
Qed.

End StoreProperties.

(** ** Worked examples *)

Section Examples.

Import Gateway.

#[local] Existing Instance Sample.engine.

(** A script is always sent "turn_on", whatever the caller asked for. *)
Lemma changeEntity_sends_override_witness :
  requested (changeEntity Sample.gettext Sample.isEmpty Sample.forced "script.foo"
               "turn_off" (Response 200 (Parsed (DataArray []))))
  = [servicePost Sample.forced "script" "turn_on" "script.foo"].
Proof.
  destruct (changeEntity_sends_override Sample.gettext Sample.isEmpty Sample.forced
              "script.foo" "turn_off" (Response 200 (Parsed (DataArray []))) eq_refl)
    as (Hscript & _ & _).
  exact (Hscript eq_refl).
Defined.

(** The request issued for [changeEntity("script.foo", "turn_on")] is not
    the one for the action "activate". *)
Lemma changeEntity_script_activate_counterexample :
  requested (changeEntity Sample.gettext Sample.isEmpty Sample.forced "script.foo"
               "turn_on" (Response 200 (Parsed (DataArray []))))
  = [servicePost Sample.forced "script" "turn_on" "script.foo"]
  ∧ requested (changeEntity Sample.gettext Sample.isEmpty Sample.forced "script.foo"
                 "turn_on" (Response 200 (Parsed (DataArray []))))
    ≠ [servicePost Sample.forced "script" "activate" "script.foo"].
Proof. split; [reflexivity|]. vm_compute. discriminate. Qed.

(** A blank object is inert; a filled-in one is valid. *)
Lemma unconfigured_gateway_is_inert_witness :
  (isValid HomeAssistantAPI = false
   ∧ (∀ entity r, fetchEntity Sample.gettext HomeAssistantAPI entity r = [])
   ∧ (∀ r, fetchApiStatus Sample.gettext HomeAssistantAPI r = [])
   ∧ (∀ entity a r,
        changeEntity Sample.gettext Sample.isEmpty HomeAssistantAPI entity a r = []))
  ∧ isValid Sample.forced = true.
Proof.
  split.
  - apply (unconfigured_gateway_is_inert Sample.gettext Sample.isEmpty HomeAssistantAPI).
    left. reflexivity.
  - apply (unconfigured_gateway_is_inert Sample.gettext Sample.isEmpty Sample.forced);
      discriminate.
Defined.

(** C3 (a defect of the code): with force set, a successful
    [changeEntity("light.desk", "constructor")] on the non-executable id
    "light.desk" sends the action "constructor" and then emits one "change"
    event whose state is neither an entry of [ForcedStates], which has none
    for "constructor", nor the action name: [ForcedStates["constructor"]]
    finds the member that the table inherits from [Object.prototype], a
    truthy value, so the fallback to the action is not taken. *)
Theorem changeEntity_force_inherited_state :
  isExecutable "light.desk" = false
  ∧ ForcedStates !! "constructor" = None
  ∧ changeEntity Sample.gettext Sample.isEmpty Sample.forced "light.desk" "constructor"
      (Response 200 (Parsed (DataArray [])))
    = [Fetch (servicePost Sample.forced "light" "constructor" "light.desk");
       SendData (Change "light.desk" (Inherited "constructor"))]
  ∧ Change "light.desk" (Inherited "constructor") ≠ Change "light.desk" "constructor".
Proof. repeat split. discriminate. Qed.

(** An action without a forced state is reported under its own name. *)
Example changeEntity_force_falls_back_to_action :
  emitted (changeEntity Sample.gettext Sample.isEmpty Sample.forced "light.desk" "toggle"
             (Response 200 (Parsed (DataArray []))))
  = [Change "light.desk" "toggle"].
Proof. reflexivity. Qed.

Lemma sample_isEmpty_array (l : list EntityState) :
  l ≠ [] → Sample.isEmpty (DataArray l) = false.
Proof. destruct l; [intros H; destruct (H eq_refl) | reflexivity]. Defined.

(** [changeEntity("cover.blinds", "open_cover")] in read-back mode. *)
Lemma changeEntity_readback_emits_matching_witness :
  emitted (changeEntity Sample.gettext Sample.isEmpty Sample.readback "cover.blinds"
             "open_cover"
             (Response 200 (Parsed (DataArray [mkEntityState "cover.blinds" "open" None]))))
  = [Change "cover.blinds" "open"].
Proof.
  exact (changeEntity_readback_emits_matching Sample.gettext Sample.isEmpty Sample.readback
           "cover.blinds" "open_cover" 200 [mkEntityState "cover.blinds" "open" None]
           sample_isEmpty_array eq_refl eq_refl eq_refl).
Defined.

(** A response about another entity produces no event. *)
Example changeEntity_readback_other_id :
  emitted (changeEntity Sample.gettext Sample.isEmpty Sample.readback "cover.blinds"
             "open_cover"
             (Response 200 (Parsed (DataArray [mkEntityState "cover.garage" "open" None]))))
  = [].
Proof. reflexivity. Qed.

(** A script is executable and reports nothing in force mode. *)
Lemma executable_never_reported_in_force_mode_witness :
  isExecutable "script.foo" = true
  ∧ ∀ self a r, force self = true →
      emitted (changeEntity Sample.gettext Sample.isEmpty self "script.foo" a r) = [].
Proof.
  apply (executable_never_reported_in_force_mode Sample.gettext Sample.isEmpty "script.foo").
  left. reflexivity.
Defined.

(** The constructor does not produce the default configuration. *)
Lemma new_object_defaults_counterexample : HomeAssistantAPI ≠ defaults.
Proof. discriminate. Qed.

(** A light with a friendly name. *)
Lemma fetchEntity_add_record_witness :
  ∃ nm st,
    emitted (fetchEntity Sample.gettext Sample.forced "light.kitchen"
               (Response 200 (Parsed (mkEntityState "light.kitchen" "on"
                                        (Some (mkAttributes (Some "Kitchen")))))))
    = [Add "light.kitchen" nm st "light"] ∧ nm = "Kitchen" ∧ st = "on".
Proof.
  destruct (fetchEntity_add_record Sample.gettext Sample.forced "light.kitchen" 200
              (mkEntityState "light.kitchen" "on" (Some (mkAttributes (Some "Kitchen"))))
              eq_refl eq_refl)
    as (nm & st & Hadd & Hfriendly & _ & _ & _ & Hstate).
  exists nm, st. split; [exact Hadd|]. split.
  - apply Hfriendly; [reflexivity | discriminate].
  - apply Hstate; reflexivity.
Defined.

(** An id that merely begins with "script" is reported as "exe" although its
    domain, "scripts", is none of script, automation and button. *)
Lemma fetchEntity_exe_counterexample :
  emitted (fetchEntity Sample.gettext Sample.forced "scripts.night"
             (Response 200 (Parsed (mkEntityState "scripts.night" "on" None))))
  = [Add "scripts.night" "scripts.night" "exe" "scripts"]
  ∧ ¬ (JS.domain "scripts.night" = "script" ∨ JS.domain "scripts.night" = "automation"
       ∨ JS.domain "scripts.night" = "button").
Proof.
  split; [reflexivity|]. vm_compute. intros [H|[H|H]]; discriminate.
Qed.

(** An empty friendly name is ignored. *)
Example fetchEntity_empty_friendly_name :
  emitted (fetchEntity Sample.gettext Sample.forced "light.kitchen"
             (Response 200 (Parsed (mkEntityState "light.kitchen" "on"
                                      (Some (mkAttributes (Some "")))))))
  = [Add "light.kitchen" "light.kitchen" "on" "light"].
Proof. reflexivity. Qed.

End Examples.

Section StoreExamples.

Import Store.

(** Two lights are added after a "clear": the handler has put one entry
    per entity in the category list, neither of them the prefix "light",
    and both for that same prefix. *)
Lemma add_records_every_entity_counterexample :
  Categories (run Sample.gettext (start Sample.gettext None)
                [Deliver Clear; Deliver (Add "light.a" "A" "on" "light");
                 Deliver (Add "light.b" "B" "off" "light")])
  = [CategoryId "light.a"; CategoryId "light.b"]
  ∧ ¬ NoDup (categoryPrefix <$>
               Categories (run Sample.gettext (start Sample.gettext None)
                             [Deliver Clear; Deliver (Add "light.a" "A" "on" "light");
                              Deliver (Add "light.b" "B" "off" "light")])).
Proof.
  split; [reflexivity|]. vm_compute. intros H.
  apply NoDup_cons in H as [Hin _]. apply Hin. left.
Qed.

(** The same run followed by the rendering of both tiles records "light"
    once. *)
Example render_records_category_once :
  categoryNames
    (Categories (run Sample.gettext (start Sample.gettext None)
                   [Deliver Clear; Deliver (Add "light.a" "A" "on" "light");
                    Deliver (Add "light.b" "B" "off" "light"); Render 0; Render 1]))
  = ["light"].
Proof. reflexivity. Qed.

(** With the fallback settings, which have no [entities] field, the push
    onto the persisted list fails after the entity record was appended and
    the rest of the branch is skipped. *)
Example add_without_persisted_list :
  onmessage (start Sample.gettext None) (Add "light.a" "A" "on" "light")
  = mkState false (Some "unavailable") (loadSettings None) []
      [mkEntity "light.a" "A" "on"] Unbound 0 [].
Proof. reflexivity. Qed.

Lemma category_strings_stay_unique_witness :
  Entities (onmessage (onmessage (start Sample.gettext None) Clear)
              (Add "light.a" "A" "on" "light"))
  = [mkEntity "light.a" "A" "on"]
  ∧ entities (settings (onmessage (onmessage (start Sample.gettext None) Clear)
                          (Add "light.a" "A" "on" "light")))
    = Some ["light.a"]
  ∧ categoryNames (Categories (onmessage (onmessage (start Sample.gettext None) Clear)
                                 (Add "light.a" "A" "on" "light")))
    = [].
Proof.
  destruct (category_strings_stay_unique Sample.gettext) as (Hadd & _).
  exact (Hadd (onmessage (start Sample.gettext None) Clear) "light.a" "A" "on" "light" []
           eq_refl).
Defined.

End StoreExamples.

(** * Further properties of the code *)

(** ** Splitting an entity id *)

Section SplitProperties.

Lemma prefix_append (a b : string) : String.prefix a (a +:+ b) = true.
Proof.
  induction a as [|c a IH]; simpl; [by destruct b|].
  destruct (ascii_dec c c); [done | congruence].
Qed.

Lemma split_no_separator (sep : ascii) (s : string) :
  Link.contains sep s = false → JS.split sep s = [s].
Proof.
  induction s as [|c rest IH]; simpl; [done|].
  destruct (Ascii.eqb c sep); [done|]. intros H. by rewrite (IH H).
Qed.

Lemma split_append (sep : ascii) (d rest : string) :
  Link.contains sep d = false →
  JS.split sep (d +:+ String sep rest) = d :: JS.split sep rest.
Proof.
  induction d as [|c d IH]; simpl.
  - by rewrite Ascii.eqb_refl.
  - destruct (Ascii.eqb c sep); [done|]. intros H. by rewrite (IH H).
Qed.

Lemma split_pieces (sep : ascii) (s : string) :
  Forall (λ piece, Link.contains sep piece = false) (JS.split sep s).
Proof.
  induction s as [|c rest IH]; simpl.
  - by constructor.
  - destruct (Ascii.eqb c sep) eqn:Hc; [by constructor|].
    destruct (split_cons sep rest) as (h & t & Hs). rewrite Hs in IH |- *.
    apply Forall_cons in IH as [Hh Ht]. constructor; [|done].
    simpl. by rewrite Hc.
Qed.

Lemma concat_cons2 (sep x y : string) (ys : list string) :
  String.concat sep (x :: y :: ys) = x +:+ sep +:+ String.concat sep (y :: ys).
Proof. reflexivity. Qed.

Lemma split_concat (sep : ascii) (s : string) :
  String.concat (String sep EmptyString) (JS.split sep s) = s.
Proof.
  induction s as [|c rest IH]; [done|].
  destruct (split_cons sep rest) as (h & t & Hs).
  cbn [JS.split]. rewrite Hs in IH |- *.
  destruct (Ascii.eqb_spec c sep) as [->|Hne].
  - rewrite concat_cons2, IH. done.
  - destruct t as [|y ys].
    + cbn in IH |- *. by rewrite IH.
    + rewrite concat_cons2 in IH |- *. by rewrite <- IH.
Qed.

(** Joining the pieces of [split] with the separator gives the string
    back, and no piece contains the separator. *)
Theorem split_concat_roundtrip (sep : ascii) (s : string) :
  String.concat (String sep EmptyString) (JS.split sep s) = s
  ∧ Forall (λ piece, Link.contains sep piece = false) (JS.split sep s).
Proof. split; [apply split_concat | apply split_pieces]. Qed.

(** X1: the domain of an id of the form domain.object_id, where the domain
    part has no dot, is that domain part; an id without a dot is its own
    domain; and a domain never contains a dot. *)
Theorem domain_of_dotted_id (d rest s : string) :
  (Link.contains "." d = false → JS.domain (d +:+ "." +:+ rest) = d)
  ∧ (Link.contains "." s = false → JS.domain s = s)
  ∧ Link.contains "." (JS.domain s) = false.
Proof.
  unfold JS.domain. split; [|split].
  - intros H. change ("." +:+ rest) with (String "." rest).
    by rewrite split_append.
  - intros H. by rewrite split_no_separator.
  - pose proof (split_pieces "." s) as Hp.
    destruct (split_cons "." s) as (h & t & Hs). rewrite Hs in Hp |- *.
    by apply Forall_cons in Hp as [Hh _].
Qed.

End SplitProperties.

(** ** The gateway: configuration *)

Section ConfigurationProperties.

Import Gateway.

(** X2: [setup] overwrites all four fields: each one receives the argument
    when it is defined and its default otherwise, so the result does not
    depend on the configuration [setup] is applied to. *)
Theorem setup_replaces_everything (self other : Config) (u p t : option string)
    (f : option bool) :
  setup self u p t f
  = mkConfig (default "127.0.0.1" u) (default "8123" p) (default "" t) (default true f)
  ∧ setup self u p t f = setup other u p t f.
Proof. destruct u, p, t, f; done. Qed.

(** X3: after [setup] the configuration is valid exactly when a non-empty
    token was passed and neither the url nor the port was passed as the
    empty string; omitted url and port are covered by their defaults, an
    omitted token never is. *)
Theorem isValid_after_setup (self : Config) (u p t : option string) (f : option bool) :
  isValid (setup self u p t f) = true
  ↔ u ≠ Some "" ∧ p ≠ Some "" ∧ ∃ tok, t = Some tok ∧ tok ≠ "".
Proof.
  rewrite isValid_true. destruct u as [u|], p as [p|], t as [t|], f; simpl;
    naive_solver.
Qed.

End ConfigurationProperties.

(** ** The gateway: remote operations *)

Section OperationProperties.

Import Gateway.

Context {engine : Engine}.
Variable gettext : string → string.
Variable isEmpty : ServiceData → bool.

Lemma fetchEntity_requested (self : Config) (entity : string) (r : outcome EntityState) :
  isValid self = true →
  requested (fetchEntity gettext self entity r)
  = [mkRequest "GET" (address self +:+ "/api/states/" +:+ entity)
       ("Bearer " +:+ token self) "application/json" None].
Proof.
  intros Hv. unfold fetchEntity. rewrite Hv. simpl. f_equal.
  destruct r as [reason|status [data|]]; simpl; [done | | ];
    by destruct (ok status).
Qed.

Lemma fetchApiStatus_requested (self : Config) (r : outcome ServerConfig) :
  isValid self = true →
  requested (fetchApiStatus gettext self r)
  = [mkRequest "GET" (address self +:+ "/api/config")
       ("Bearer " +:+ token self) "application/json" None].
Proof.
  intros Hv. unfold fetchApiStatus. rewrite Hv. simpl. f_equal.
  destruct r as [reason|status [data|]]; simpl; [done | | done].
  by destruct (Nat.eqb status 200).
Qed.

(** X4: a configured gateway issues exactly one request per operation,
    whatever the outcome (there is no retry); the request goes to a path
    under [address()] and carries the bearer token and the JSON content
    type. *)
Theorem one_authenticated_request (self : Config) (entity a : string)
    (rE : outcome EntityState) (rA : outcome ServerConfig) (rC : outcome ServiceData) :
  isValid self = true →
  requested (fetchEntity gettext self entity rE)
  = [mkRequest "GET" (address self +:+ "/api/states/" +:+ entity)
       ("Bearer " +:+ token self) "application/json" None]
  ∧ requested (fetchApiStatus gettext self rA)
    = [mkRequest "GET" (address self +:+ "/api/config")
         ("Bearer " +:+ token self) "application/json" None]
  ∧ ∃ group action,
      requested (changeEntity gettext isEmpty self entity a rC)
      = [mkRequest "POST"
           (address self +:+ "/api/services/" +:+ group +:+ "/" +:+ action)
           ("Bearer " +:+ token self) "application/json" (Some entity)].
Proof.
  intros Hv. split; [by apply fetchEntity_requested|].
  split; [by apply fetchApiStatus_requested|].
  eexists _, _. by apply changeEntity_requested.
Qed.

(** X5: [fetchEntity] emits an event only for a 2xx response whose body
    parses, and then exactly one "add" event, carrying the entity id and
    the domain found in the response; for a rejected request, another
    status or an unparsable body, and for an invalid configuration, it
    emits nothing. *)
Theorem fetchEntity_reports_only_success (self : Config) (entity : string)
    (r : outcome EntityState) :
  (isValid self = true → Link.succeeded r = true →
     ∃ status data nm st,
       r = Response status (Parsed data)
       ∧ emitted (fetchEntity gettext self entity r)
         = [Add (entity_id data) nm st (JS.domain (entity_id data))])
  ∧ (isValid self = false ∨ Link.succeeded r = false →
     emitted (fetchEntity gettext self entity r) = []).
Proof.
  unfold fetchEntity. split.
  - intros Hv Hs. rewrite Hv.
    destruct r as [reason|status [data|]]; simpl in Hs; try done.
    rewrite Hs. simpl. by eexists _, _, _, _.
  - intros [Hv|Hs]; [by rewrite Hv|].
    destruct (isValid self); [|done].
    destruct r as [reason|status [data|]]; simpl in Hs |- *; try done;
      by destruct (ok status).
Qed.

(** X6: a configured gateway answers every status check with exactly one
    event.  Only status 200 with a parsable body reports "ok", together
    with the location name; any other status, other 2xx codes included,
    reports the error text as a stringified message; a rejected request or
    an unparsable body reports the connection error. *)
Theorem fetchApiStatus_always_answers (self : Config) :
  isValid self = true →
  (∀ data, emitted (fetchApiStatus gettext self (Response 200 (Parsed data)))
           = [Api "ok" (location_name data)])
  ∧ (∀ status data, status ≠ 200 →
       emitted (fetchApiStatus gettext self (Response status (Parsed data)))
       = [Stringified (Api (gettext "error" +:+ " " +:+ JS.number status) None)])
  ∧ (∀ r, Link.bodiless r = true →
       emitted (fetchApiStatus gettext self r) = [Api (gettext "connection_error") None])
  ∧ (∀ r, List.length (emitted (fetchApiStatus gettext self r)) = 1).
Proof.
  intros Hv. unfold fetchApiStatus. rewrite Hv. repeat split.
  - intros status data Hne. apply Nat.eqb_neq in Hne. simpl. by rewrite Hne.
  - intros r Hb. by destruct r as [reason|status [data|]].
  - intros r. destruct r as [reason|status [data|]]; simpl; try done.
    by destruct (Nat.eqb status 200).
Qed.

Lemma changeEntity_emitted_shape (self : Config) (entity a : string)
    (r : outcome ServiceData) :
  Forall (λ m, ∃ s, m = Change entity s) (emitted (changeEntity gettext isEmpty self entity a r)).
Proof.
  unfold changeEntity. destruct (isValid self); [|by constructor]. simpl.
  destruct r as [reason|status [data|]]; simpl; [by constructor | | ];
    destruct (ok status); simpl; try by constructor.
  destruct (force self); simpl.
  - destruct (isExecutable entity); simpl; [by constructor|].
    constructor; [by eexists | by constructor].
  - destruct (isEmpty data); simpl; [by constructor|].
    destruct data as [elements|]; simpl; [|by constructor].
    induction elements as [|e l IH]; simpl; [by constructor|].
    rewrite emitted_app. apply Forall_app. split; [|done].
    unfold reportElement. destruct (String.eqb_spec (entity_id e) entity) as [Heq|Hne];
      [|by constructor].
    destruct (isExecutable (entity_id e)); simpl; [by constructor|].
    constructor; [|by constructor]. rewrite Heq. by eexists.
Qed.

Lemma changeEntity_emitted_nil (self : Config) (entity a : string)
    (r : outcome ServiceData) :
  isValid self = false ∨ Link.succeeded r = false ∨ isExecutable entity = true →
  emitted (changeEntity gettext isEmpty self entity a r) = [].
Proof.
  unfold changeEntity. intros [Hv|H]; [by rewrite Hv|].
  destruct (isValid self); [|done]. simpl.
  destruct r as [reason|status [data|]]; simpl; [done | | by destruct (ok status)].
  destruct (ok status) eqn:Hok; simpl; [|done].
  destruct H as [Hs|Hx]; [simpl in Hs; congruence|].
  destruct (force self); simpl; [by rewrite Hx|].
  destruct (isEmpty data); simpl; [done|].
  destruct data as [elements|]; simpl; [|done].
  induction elements as [|e l IH]; simpl; [done|].
  rewrite emitted_app, IH, app_nil_r. unfold reportElement.
  destruct (String.eqb_spec (entity_id e) entity) as [Heq|Hne]; [|done].
  by rewrite Heq, Hx.
Qed.

(** X7: in both result policies, every event [changeEntity] emits is a
    "change" event for the id it was called with.  It emits nothing when
    the configuration is invalid, when the request is rejected, answered
    with a status outside 200-299 or with an unparsable body, and, in
    read-back mode as in force mode, when the id is executable. *)
Theorem changeEntity_reports_only_target (self : Config) (entity a : string)
    (r : outcome ServiceData) :
  (∀ m, m ∈ emitted (changeEntity gettext isEmpty self entity a r) →
        ∃ s, m = Change entity s)
  ∧ (isValid self = false ∨ Link.succeeded r = false ∨ isExecutable entity = true →
     emitted (changeEntity gettext isEmpty self entity a r) = []).
Proof.
  split; [|apply changeEntity_emitted_nil].
  apply Forall_forall, changeEntity_emitted_shape.
Qed.

Lemma Groups_None_no_override (d : string) :
  Groups !! d = None → NextStateOverrides !! d = None.
Proof.
  intros Hg. destruct (NextStateOverrides !! d) as [v|] eqn:Hv; [|done].
  apply NextStateOverrides_Some in Hv as [[-> _]|[[-> _]|[-> _]]];
    vm_compute in Hg; discriminate.
Qed.

(** X8: a domain is not validated locally.  When [Groups[domain]] is
    undefined (the domain is no key of [Groups] and names nothing that
    objects inherit) the service call is still issued, to the group
    "undefined", with the caller's action.  When the domain is no key of
    [Groups] but names a member inherited from [Object.prototype], such as
    "constructor", the call is issued with the text of that member both as
    group and as action, whatever action the caller asked for. *)
Theorem changeEntity_unknown_domain (self : Config) (entity a : string)
    (r : outcome ServiceData) :
  isValid self = true →
  (get Groups (JS.domain entity) = None →
     requested (changeEntity gettext isEmpty self entity a r)
     = [servicePost self "undefined" a entity])
  ∧ (Groups !! JS.domain entity = None → inherits (JS.domain entity) = true →
     requested (changeEntity gettext isEmpty self entity a r)
     = [servicePost self (memberText (JS.domain entity)) (memberText (JS.domain entity))
          entity]).
Proof.
  intros Hv. split.
  - intros Hg. rewrite changeEntity_requested by done. rewrite Hg.
    unfold get in Hg |- *.
    destruct (Groups !! JS.domain entity) eqn:Hown; [done|].
    rewrite (Groups_None_no_override _ Hown).
    by destruct (inherits (JS.domain entity)).
  - intros Hown Hi. rewrite changeEntity_requested by done.
    rewrite (get_inherited _ _ Hown Hi),
      (get_inherited _ _ (Groups_None_no_override _ Hown) Hi).
    done.
Qed.

(** X19: for a non-executable id, when neither the domain of the id nor the
    action names a member inherited from [Object.prototype], a successful
    [changeEntity] in force mode performs the service call with the caller's
    action and then emits exactly one "change" event for the id, whose
    state is the [ForcedStates] entry of that action, or the action itself
    when the table has none. *)
Theorem changeEntity_force_plain_names (self : Config) (entity a : string)
    (status : nat) (data : ServiceData) :
  isValid self = true → force self = true → ok status = true →
  isExecutable entity = false →
  inherits (JS.domain entity) = false → inherits a = false →
  changeEntity gettext isEmpty self entity a (Response status (Parsed data))
  = [Fetch (servicePost self (default "undefined" (Groups !! JS.domain entity)) a entity);
     SendData (Change entity (default a (ForcedStates !! a)))].
Proof.
  intros Hv Hf Hok Hx Hd Ha. unfold changeEntity, servicePost.
  rewrite Hv, Hf, Hok, Hx.
  rewrite (get_undefined _ _ (not_executable_no_override _ Hx) Hd). simpl.
  rewrite (forced_state_plain _ Ha). do 4 f_equal.
  unfold get. rewrite Hd. by destruct (Groups !! JS.domain entity).
Qed.

End OperationProperties.

(** ** The store: message handling and rendering *)

Section StoreRunProperties.

Import Store.

Lemma Forall2_chain {A : Type} (R : A → A → Prop) (l1 l2 l3 : list A) :
  (∀ x y z, R x y → R y z → R x z) →
  Forall2 R l1 l2 → Forall2 R l2 l3 → Forall2 R l1 l3.
Proof.
  intros Htrans H12. revert l3.
  induction H12 as [|x y l1 l2 Hxy _ IH]; intros l3 H23.
  - by inversion H23.
  - inversion H23 as [|? z ? l3' Hyz H23']; subst. constructor; eauto.
Qed.

Lemma updateState_ids (i s : string) (l : list Entity) :
  id <$> map (updateState i s) l = id <$> l.
Proof.
  induction l as [|e l IH]; csimpl; [done|]. rewrite IH. f_equal.
  unfold updateState. by destruct (String.eqb (id e) i).
Qed.

Lemma updateState_absent (i s : string) (l : list Entity) :
  i ∉ id <$> l →
  map (updateState i s) l = l ∧ existsb (λ e, String.eqb (id e) i) l = false.
Proof.
  induction l as [|e l IH]; csimpl; [done|].
  intros [Hne Hl]%not_elem_of_cons. destruct (IH Hl) as [-> ->].
  unfold updateState. apply not_eq_sym, String.eqb_neq in Hne. by rewrite Hne.
Qed.

Lemma updateState_pointwise (i s : string) (l : list Entity) :
  Forall2 (λ e e', id e' = id e ∧ name e' = name e
                   ∧ (id e = i → state e' = s) ∧ (id e ≠ i → e' = e))
    l (map (updateState i s) l).
Proof.
  induction l as [|e l IH]; simpl; constructor; [|done].
  unfold updateState. destruct (String.eqb_spec (id e) i); simpl; naive_solver.
Qed.

(** X9: a "change" event keeps the length and order of the entity list
    and, position by position, the id and the name; it sets the state of
    every entity whose id is the given one and leaves the other entities,
    the category list, the settings and the outbox as they were.  For an
    id that is not in the list the whole store is left unchanged. *)
Theorem change_updates_matching_entities (st : State) (i s : string) :
  Forall2 (λ e e', id e' = id e ∧ name e' = name e
                   ∧ (id e = i → state e' = s) ∧ (id e ≠ i → e' = e))
    (Entities st) (Entities (onmessage st (Change i s)))
  ∧ Categories (onmessage st (Change i s)) = Categories st
  ∧ settings (onmessage st (Change i s)) = settings st
  ∧ outbox (onmessage st (Change i s)) = outbox st
  ∧ (i ∉ id <$> Entities st → onmessage st (Change i s) = st).
Proof.
  simpl. split; [|split; [|split; [|split]]].
  - destruct (existsb _ _); simpl; apply updateState_pointwise.
  - by destruct (existsb _ _).
  - by destruct (existsb _ _).
  - by destruct (existsb _ _).
  - intros Hi. destruct (updateState_absent i s _ Hi) as [-> ->]. by destruct st.
Qed.

Variable gettext : string → string.

Lemma renderTile_frame (st : State) (i : nat) :
  ∃ cs, renderTile gettext st i = set_Categories st cs.
Proof.
  unfold renderTile. assert (st = set_Categories st (Categories st)) as Hst by by destruct st.
  destruct (Nat.ltb i (listLength st)); [|by eexists].
  destruct (getTileInfo (data st) i) as [info|]; [|by eexists].
  unfold configureTile. destruct (String.eqb (type info) "item-pool"); [|by eexists].
  destruct (negb _); simpl; by eexists.
Qed.

Lemma onmessage_mirror (st : State) (evt : message) :
  entities (settings st) = Some (id <$> Entities st) →
  entities (settings (onmessage st evt))
  = Some (id <$> Entities (onmessage st evt)).
Proof.
  intros Hinv. destruct evt; simpl; try done.
  - rewrite Hinv. simpl. by rewrite fmap_app.
  - destruct (existsb _ _); simpl; by rewrite updateState_ids.
  - by destruct (String.eqb _ _).
Qed.

Lemma step_mirror (st : State) (a : action) :
  entities (settings st) = Some (id <$> Entities st) →
  entities (settings (step gettext st a)) = Some (id <$> Entities (step gettext st a)).
Proof.
  destruct a as [evt|i]; simpl; [apply onmessage_mirror|].
  destruct (renderTile_frame st i) as [cs ->]. done.
Qed.

(** X10: once a "clear" event has been handled, the persisted list names
    exactly the entities of the entity list, in the same order, after
    every further sequence of messages and renderings. *)
Theorem persisted_list_mirrors_entities (st : State) (actions : list action) :
  entities (settings (run gettext (onmessage st Clear) actions))
  = Some (id <$> Entities (run gettext (onmessage st Clear) actions)).
Proof.
  assert (∀ st0, entities (settings st0) = Some (id <$> Entities st0) →
            entities (settings (run gettext st0 actions))
            = Some (id <$> Entities (run gettext st0 actions))) as Hrun.
  { induction actions as [|a l IH]; intros st0 H0; simpl; [done|].
    apply IH. by apply step_mirror. }
  by apply Hrun.
Qed.

Lemma step_bound (st : State) (a : action) :
  (listLength st ≤ List.length (data st))%nat →
  (listLength (step gettext st a) ≤ List.length (data (step gettext st a)))%nat.
Proof.
  intros Hinv. destruct a as [evt|i]; simpl.
  - destruct evt; simpl; try done.
    + unfold data in *. simpl. by destruct (listData st).
    + destruct (entities (settings st)); simpl; [done|].
      unfold data in *. simpl. destruct (listData st); simpl in *; try done.
      rewrite length_app. lia.
    + destruct (existsb _ _); simpl; [done|].
      unfold data in *. simpl. destruct (listData st); simpl in *; try done.
      by rewrite length_map.
    + by destruct (String.eqb _ _).
  - destruct (renderTile_frame st i) as [cs ->]. done.
Qed.

(** X11: from start-up and across every sequence of messages and
    renderings, the length announced to the tile list never exceeds the
    length of the array the delegate reads, so [getTileInfo] finds an
    entity at every position the platform may ask for. *)
Theorem rendered_positions_are_defined (file : option Settings) (actions : list action)
    (i : nat) :
  (i < listLength (run gettext (start gettext file) actions))%nat →
  ∃ e, data (run gettext (start gettext file) actions) !! i = Some e
       ∧ getTileInfo (data (run gettext (start gettext file) actions)) i
         = Some (mkTileInfo "item-pool" (JS.domain (id e)) (name e) (state e) i).
Proof.
  assert (∀ st0, (listLength st0 ≤ List.length (data st0))%nat →
            (listLength (run gettext st0 actions)
             ≤ List.length (data (run gettext st0 actions)))%nat) as Hrun.
  { induction actions as [|a l IH]; intros st0 H0; simpl; [done|].
    apply IH. by apply step_bound. }
  intros Hi. specialize (Hrun (start gettext file)). simpl in Hrun.
  specialize (Hrun (Nat.le_0_l _)).
  destruct (lookup_lt_is_Some_2 (data (run gettext (start gettext file) actions)) i)
    as [e He]; [lia|].
  exists e. split; [done|]. unfold getTileInfo. by rewrite He.
Qed.

Lemma step_prefix (st : State) (a : action) :
  Categories st `prefix_of` Categories (step gettext st a).
Proof.
  destruct a as [evt|i]; simpl.
  - destruct evt; simpl; try done.
    + destruct (entities (settings st)); simpl; [|done]. by apply prefix_app_r.
    + by destruct (existsb _ _).
    + by destruct (String.eqb _ _).
  - unfold renderTile. destruct (Nat.ltb i (listLength st)); [|done].
    destruct (getTileInfo (data st) i) as [info|]; [|done].
    unfold configureTile. destruct (String.eqb (type info) "item-pool"); [|done].
    destruct (negb _); simpl; [|done]. by apply prefix_app_r.
Qed.

Lemma run_prefix (st : State) (actions : list action) :
  Categories st `prefix_of` Categories (run gettext st actions).
Proof.
  revert st. induction actions as [|a l IH]; intros st; simpl; [done|].
  etrans; [apply step_prefix | apply IH].
Qed.

(** X12: the category list is append-only: whatever messages and renderings
    follow, "clear" included, the list from before is a prefix of the list
    afterwards. *)
Theorem categories_append_only (st : State) (actions : list action) :
  Categories st `prefix_of` Categories (run gettext st actions).
Proof. apply run_prefix. Qed.

(** X13: a category label is assigned at most once.  [configureTile] puts
    the label on a tile exactly when the category string is not yet in the
    category list; once it has done so, configuring a tile of the same
    category assigns no label and changes nothing in the store, whatever
    messages and renderings happened in between. *)
Theorem category_label_assigned_once (st : State) (info : TileInfo)
    (actions : list action) :
  type info = "item-pool" →
  (itemCategory <$> snd (configureTile gettext st info)
   = Some (if decide (category_of info ∈ categoryNames (Categories st)) then None
           else Some (category_of info)))
  ∧ configureTile gettext (run gettext (fst (configureTile gettext st info)) actions) info
    = (run gettext (fst (configureTile gettext st info)) actions,
       Some (mkTile (tile_name info) (gettext (tile_state info)) None)).
Proof.
  intros Ht. split.
  - unfold configureTile. rewrite Ht. simpl.
    destruct (categoryExists (Categories st) (category_of info)) eqn:Hc; simpl.
    + apply (categoryExists_spec gettext) in Hc. by rewrite decide_True.
    + rewrite decide_False; [done|]. intros H%(categoryExists_spec gettext). congruence.
  - assert (CategoryName (category_of info) ∈ Categories (fst (configureTile gettext st info)))
      as Hin.
    { unfold configureTile. rewrite Ht. simpl.
      destruct (categoryExists (Categories st) (category_of info)) eqn:Hc; simpl.
      - by apply (categoryExists_elem gettext).
      - apply elem_of_app. right. by apply list_elem_of_singleton. }
    eapply elem_of_prefix in Hin; [|apply run_prefix with (actions := actions)].
    apply (categoryExists_elem gettext) in Hin.
    unfold configureTile at 1. by rewrite Ht, Hin.
Qed.

Lemma step_outbox (st : State) (a : action) (rest : list action) :
  outbox (step gettext st a) ++ Link.configMessages rest
  = outbox st ++ Link.configMessages (a :: rest).
Proof.
  destruct a as [evt|i]; simpl.
  - destruct evt; simpl; try done; try by rewrite <- app_assoc.
    + by destruct (entities (settings st)).
    + by destruct (existsb _ _).
    + by destruct (String.eqb _ _).
  - destruct (renderTile_frame st i) as [cs ->]. done.
Qed.

(** X14: the store sends exactly the acknowledgements of the configuration
    messages it receives: after any sequence of messages and renderings the
    outbox has grown by the url, port, token and force messages that were
    delivered, unchanged and in order of arrival, and by nothing else. *)
Theorem outbox_echoes_configuration (st : State) (actions : list action) :
  outbox (run gettext st actions) = outbox st ++ Link.configMessages actions.
Proof.
  revert st. induction actions as [|a l IH]; intros st; simpl.
  - by rewrite app_nil_r.
  - rewrite IH. apply step_outbox.
Qed.

End StoreRunProperties.

(** ** The store on a fresh install *)

Section FreshInstall.

Import Store.

Variable gettext : string → string.

Lemma step_keeps_undefined (st : State) (a : action) :
  a ≠ Deliver Clear →
  entities (settings st) = None →
  entities (settings (step gettext st a)) = None.
Proof.
  intros Ha Hnone. destruct a as [evt|i]; simpl.
  - destruct evt; simpl; try done.
    + by rewrite Hnone.
    + by destruct (existsb _ _).
    + by destruct (String.eqb _ _).
  - destruct (renderTile_frame gettext st i) as [cs ->]. done.
Qed.

(** X18: without a settings file the settings have no persisted list, and
    they get one only from a "clear" event: as long as none is delivered
    the persisted list stays undefined, so an "add" event appends its
    entity record and persists nothing. *)
Theorem fresh_install_persists_nothing_before_clear (actions : list action) :
  Deliver Clear ∉ actions →
  entities (settings (run gettext (start gettext None) actions)) = None
  ∧ ∀ i n s t,
      onmessage (run gettext (start gettext None) actions) (Add i n s t)
      = mutate_Entities (run gettext (start gettext None) actions)
          (Entities (run gettext (start gettext None) actions) ++ [mkEntity i n s]).
Proof.
  intros Hclear.
  assert (∀ st0, entities (settings st0) = None →
            entities (settings (run gettext st0 actions)) = None) as Hrun.
  { induction actions as [|a l IH]; intros st0 H0; simpl; [done|].
    apply not_elem_of_cons in Hclear as [Ha Hl].
    apply IH; [done|]. apply step_keeps_undefined; [congruence | done]. }
  specialize (Hrun (start gettext None) eq_refl).
  split; [done|]. intros i n s t. simpl. by rewrite Hrun.
Qed.

End FreshInstall.


(** ** The gateway's events as seen by the store *)

Section EndToEnd.

Context {engine : Gateway.Engine}.

(** [gettextC] translates on the companion, [gettextA] on the device. *)
Variable gettextC : string → string.
Variable gettextA : string → string.
Variable isEmpty : Gateway.ServiceData → bool.

(** X15: what a status check does to the store.  A 200 answer sets the
    connectivity flag and shows the location name.  A rejected request or
    an unparsable body clears the flag and shows the connection-error text
    (provided that text is not the word "ok").  Any other status leaves the
    store exactly as it was, flag included, because the error is sent as a
    string, which has no key the handler could dispatch on. *)
Theorem status_check_reaches_store (self : Gateway.Config) (st : Store.State) :
  Gateway.isValid self = true →
  (∀ data,
      Store.Available (Store.run gettextA st (Link.deliver (Gateway.emitted
        (Gateway.fetchApiStatus gettextC self
           (Gateway.Response 200 (Gateway.Parsed data)))))) = true
      ∧ Store.AddressText (Store.run gettextA st (Link.deliver (Gateway.emitted
          (Gateway.fetchApiStatus gettextC self
             (Gateway.Response 200 (Gateway.Parsed data))))))
        = Gateway.location_name data)
  ∧ (∀ status data, status ≠ 200 →
      Store.run gettextA st (Link.deliver (Gateway.emitted
        (Gateway.fetchApiStatus gettextC self
           (Gateway.Response status (Gateway.Parsed data))))) = st)
  ∧ (∀ r, Link.bodiless r = true → gettextC "connection_error" ≠ "ok" →
      Store.Available (Store.run gettextA st (Link.deliver (Gateway.emitted
        (Gateway.fetchApiStatus gettextC self r)))) = false
      ∧ Store.AddressText (Store.run gettextA st (Link.deliver (Gateway.emitted
          (Gateway.fetchApiStatus gettextC self r))))
        = Some (gettextC "connection_error")).
Proof.
  intros Hv. unfold Gateway.fetchApiStatus. rewrite Hv. split; [|split].
  - done.
  - intros status data Hne. apply Nat.eqb_neq in Hne. simpl. by rewrite Hne.
  - intros r Hb Hok. apply String.eqb_neq in Hok.
    destruct r as [reason|status [data|]]; simpl in Hb |- *; try done;
      by rewrite Hok.
Qed.

Lemma run_changes (entity : string) (events : list message) (st : Store.State) :
  Forall (λ m, ∃ s, m = Change entity s) events →
  Forall2 (λ e e', Store.id e' = Store.id e ∧ Store.name e' = Store.name e
                   ∧ (Store.id e ≠ entity → e' = e))
    (Store.Entities st)
    (Store.Entities (Store.run gettextA st (map Store.Deliver events)))
  ∧ Store.Categories (Store.run gettextA st (map Store.Deliver events))
    = Store.Categories st
  ∧ Store.settings (Store.run gettextA st (map Store.Deliver events)) = Store.settings st
  ∧ Store.outbox (Store.run gettextA st (map Store.Deliver events)) = Store.outbox st.
Proof.
  intros Hshape. revert st.
  induction Hshape as [|m events [s ->] _ IH]; intros st.
  - simpl. split; [|done]. by apply Forall_Forall2_diag, Forall_forall.
  - change (Store.run gettextA st (map Store.Deliver (Change entity s :: events)))
      with (Store.run gettextA (Store.onmessage st (Change entity s))
              (map Store.Deliver events)).
    destruct (IH (Store.onmessage st (Change entity s))) as (HE & HC & HS & HO).
    split; [|split; [|split]].
    + eapply Forall2_chain; [| |exact HE].
      * intros x y z (Hi1 & Hn1 & Hk1) (Hi2 & Hn2 & Hk2).
        split; [congruence|]. split; [congruence|].
        intros Hne. rewrite Hk2, Hk1; [done..|]. rewrite Hi1. done.
      * simpl. eapply Forall2_impl.
        -- destruct (existsb _ _); simpl; apply updateState_pointwise.
        -- simpl. naive_solver.
    + rewrite HC. simpl. by destruct (existsb _ _).
    + rewrite HS. simpl. by destruct (existsb _ _).
    + rewrite HO. simpl. by destruct (existsb _ _).
Qed.

(** The "change" events for an id arrive as "change" messages for that id. *)
Lemma encode_changes (entity : string) (events : list Gateway.event) :
  Forall (λ m, ∃ s, m = Gateway.Change entity s) events →
  Forall (λ m, ∃ s, m = Change entity s) (omap Link.encode events).
Proof.
  induction 1 as [|m events [s ->] _ IH]; simpl; [by constructor|].
  destruct s as [s|member]; simpl; [|done].
  constructor; [by eexists | done].
Qed.

(** X16: whatever [changeEntity] emits, for any configuration, action and
    outcome, the store that receives it keeps its entity list position by
    position: same length, same ids and names, and every entity with
    another id untouched; the category list, the settings and the outbox
    are unchanged.  A state change never adds or removes an entity. *)
Theorem state_change_preserves_entity_list (self : Gateway.Config) (entity a : string)
    (r : Gateway.outcome Gateway.ServiceData) (st : Store.State) :
  Forall2 (λ e e', Store.id e' = Store.id e ∧ Store.name e' = Store.name e
                   ∧ (Store.id e ≠ entity → e' = e))
    (Store.Entities st)
    (Store.Entities (Store.run gettextA st (Link.deliver (Gateway.emitted
       (Gateway.changeEntity gettextC isEmpty self entity a r)))))
  ∧ Store.Categories (Store.run gettextA st (Link.deliver (Gateway.emitted
      (Gateway.changeEntity gettextC isEmpty self entity a r)))) = Store.Categories st
  ∧ Store.settings (Store.run gettextA st (Link.deliver (Gateway.emitted
      (Gateway.changeEntity gettextC isEmpty self entity a r)))) = Store.settings st
  ∧ Store.outbox (Store.run gettextA st (Link.deliver (Gateway.emitted
      (Gateway.changeEntity gettextC isEmpty self entity a r)))) = Store.outbox st.
Proof.
  unfold Link.deliver. apply run_changes, encode_changes, changeEntity_emitted_shape.
Qed.

(** X17: force mode end to end: after a successful [changeEntity] with
    force set, on a non-executable id and with neither the domain of the id
    nor the action naming a member inherited from [Object.prototype], every
    entity of the store with that id shows the forced state of the action,
    or the action itself when [ForcedStates] has no entry for it. *)
Theorem forced_state_reaches_store (self : Gateway.Config) (entity a : string)
    (status : nat) (data : Gateway.ServiceData) (st : Store.State) (e : Store.Entity) :
  Gateway.isValid self = true → Gateway.force self = true →
  Gateway.ok status = true → Gateway.isExecutable entity = false →
  Gateway.inherits (JS.domain entity) = false → Gateway.inherits a = false →
  e ∈ Store.Entities (Store.run gettextA st (Link.deliver (Gateway.emitted
        (Gateway.changeEntity gettextC isEmpty self entity a
           (Gateway.Response status (Gateway.Parsed data)))))) →
  Store.id e = entity →
  Store.state e = default a (Gateway.ForcedStates !! a).
Proof.
  intros Hv Hf Hok Hx Hd Ha. unfold Gateway.changeEntity.
  rewrite Hv, Hf, Hok, Hx.
  rewrite (get_undefined _ _ (not_executable_no_override _ Hx) Hd). simpl.
  rewrite (forced_state_plain _ Ha). simpl.
  intros He Hid.
  assert (e ∈ map (Store.updateState entity (default a (Gateway.ForcedStates !! a)))
                (Store.Entities st)) as Hin.
  { by destruct (existsb _ _). }
  apply list_elem_of_fmap in Hin as (e0 & -> & _).
  unfold Store.updateState in *.
  destruct (String.eqb_spec (Store.id e0) entity); [done|]. done.
Qed.

End EndToEnd.

(** ** Worked examples for the further properties *)

Section FurtherExamples.

#[local] Existing Instance Sample.engine.

Lemma domain_of_dotted_id_witness :
  JS.domain ("light" +:+ "." +:+ "kitchen.lamp") = "light" ∧ JS.domain "sun" = "sun".
Proof.
  destruct (domain_of_dotted_id "light" "kitchen.lamp" "sun") as (Hd & Hs & _).
  split; [exact (Hd eq_refl) | exact (Hs eq_refl)].
Defined.

(** A token alone makes the gateway operational; url and port fall back to
    their defaults. *)
Lemma isValid_after_setup_witness :
  Gateway.isValid (Gateway.setup Gateway.HomeAssistantAPI None None (Some "secret") None)
  = true.
Proof.
  apply (isValid_after_setup Gateway.HomeAssistantAPI None None (Some "secret") None).
  split; [discriminate|]. split; [discriminate|].
  exists "secret". split; [reflexivity | discriminate].
Defined.

Lemma one_authenticated_request_witness :
  Gateway.requested (Gateway.fetchEntity Sample.gettext Sample.forced "light.kitchen"
                       (Gateway.Rejected "timeout"))
  = [Gateway.mkRequest "GET" "http://192.168.1.10:8123/api/states/light.kitchen"
       "Bearer secret" "application/json" None].
Proof.
  exact (proj1 (one_authenticated_request Sample.gettext Sample.isEmpty Sample.forced
                  "light.kitchen" "turn_on" (Gateway.Rejected "timeout")
                  (Gateway.Rejected "timeout") (Gateway.Rejected "timeout") eq_refl)).
Defined.

Lemma fetchEntity_reports_only_success_witness :
  Gateway.emitted (Gateway.fetchEntity Sample.gettext Sample.forced "light.kitchen"
                     (Gateway.Response 404 Gateway.Unparsable)) = [].
Proof.
  apply (fetchEntity_reports_only_success Sample.gettext Sample.forced "light.kitchen"
           (Gateway.Response 404 Gateway.Unparsable)).
  right. reflexivity.
Defined.

(** A 204 answer is inside 200-299 and still reported as an error. *)
Lemma fetchApiStatus_always_answers_witness :
  Gateway.emitted (Gateway.fetchApiStatus Sample.gettext Sample.forced
                     (Gateway.Response 204 (Gateway.Parsed (Gateway.mkServerConfig (Some "Home")))))
  = [Gateway.Stringified (Gateway.Api "error 204" None)].
Proof.
  destruct (fetchApiStatus_always_answers Sample.gettext Sample.forced eq_refl)
    as (_ & Hother & _).
  apply (Hother 204 (Gateway.mkServerConfig (Some "Home"))). discriminate.
Defined.

(** An executable id reports nothing in read-back mode either. *)
Lemma changeEntity_reports_only_target_witness :
  Gateway.emitted (Gateway.changeEntity Sample.gettext Sample.isEmpty Sample.readback
                     "script.foo" "turn_on"
                     (Gateway.Response 200 (Gateway.Parsed (Gateway.DataArray
                        [Gateway.mkEntityState "script.foo" "on" None])))) = [].
Proof.
  apply (changeEntity_reports_only_target Sample.gettext Sample.isEmpty Sample.readback
           "script.foo" "turn_on").
  right. right. reflexivity.
Defined.

(** A sensor has no service group; "constructor" is found on the
    prototype of [Groups] and of [NextStateOverrides]. *)
Lemma changeEntity_unknown_domain_witness :
  Gateway.requested (Gateway.changeEntity Sample.gettext Sample.isEmpty Sample.forced
                       "sensor.temp" "turn_on" (Gateway.Rejected "timeout"))
  = [Gateway.servicePost Sample.forced "undefined" "turn_on" "sensor.temp"]
  ∧ Gateway.requested (Gateway.changeEntity Sample.gettext Sample.isEmpty Sample.forced
                         "constructor.lamp" "turn_on" (Gateway.Rejected "timeout"))
    = [Gateway.servicePost Sample.forced "function Object() { [native code] }"
         "function Object() { [native code] }" "constructor.lamp"].
Proof.
  split.
  - exact (proj1 (changeEntity_unknown_domain Sample.gettext Sample.isEmpty Sample.forced
                    "sensor.temp" "turn_on" (Gateway.Rejected "timeout") eq_refl) eq_refl).
  - exact (proj2 (changeEntity_unknown_domain Sample.gettext Sample.isEmpty Sample.forced
                    "constructor.lamp" "turn_on" (Gateway.Rejected "timeout") eq_refl)
             eq_refl eq_refl).
Defined.

(** [changeEntity("switch.lamp", "turn_on")] in force mode. *)
Lemma changeEntity_force_plain_names_witness :
  Gateway.changeEntity Sample.gettext Sample.isEmpty Sample.forced "switch.lamp" "turn_on"
    (Gateway.Response 200 (Gateway.Parsed (Gateway.DataArray [])))
  = [Gateway.Fetch (Gateway.servicePost Sample.forced "switch" "turn_on" "switch.lamp");
     Gateway.SendData (Gateway.Change "switch.lamp" (Gateway.Str "on"))].
Proof.
  exact (changeEntity_force_plain_names Sample.gettext Sample.isEmpty Sample.forced
           "switch.lamp" "turn_on" 200 (Gateway.DataArray [])
           eq_refl eq_refl eq_refl eq_refl eq_refl eq_refl).
Defined.

Lemma change_updates_matching_entities_witness :
  Store.onmessage (Store.start Sample.gettext None) (Change "light.a" "on")
  = Store.start Sample.gettext None.
Proof.
  apply (change_updates_matching_entities (Store.start Sample.gettext None) "light.a" "on").
  simpl. apply not_elem_of_nil.
Defined.

Lemma rendered_positions_are_defined_witness :
  ∃ e, Store.data (Store.run Sample.gettext (Store.start Sample.gettext None)
                     [Store.Deliver Clear; Store.Deliver (Add "light.a" "A" "on" "light")])
       !! 0 = Some e
     ∧ Store.getTileInfo
         (Store.data (Store.run Sample.gettext (Store.start Sample.gettext None)
                        [Store.Deliver Clear; Store.Deliver (Add "light.a" "A" "on" "light")]))
         0
       = Some (Store.mkTileInfo "item-pool" (JS.domain (Store.id e)) (Store.name e)
                 (Store.state e) 0).
Proof.
  apply (rendered_positions_are_defined Sample.gettext None
           [Store.Deliver Clear; Store.Deliver (Add "light.a" "A" "on" "light")] 0).
  vm_compute. lia.
Defined.

Lemma category_label_assigned_once_witness :
  Store.itemCategory <$>
    snd (Store.configureTile Sample.gettext (Store.start Sample.gettext None)
           (Store.mkTileInfo "item-pool" "light" "A" "on" 0))
  = Some (Some "light")
  ∧ Store.itemCategory <$>
      snd (Store.configureTile Sample.gettext
             (Store.run Sample.gettext
                (fst (Store.configureTile Sample.gettext (Store.start Sample.gettext None)
                        (Store.mkTileInfo "item-pool" "light" "A" "on" 0)))
                [Store.Deliver Clear])
             (Store.mkTileInfo "item-pool" "light" "A" "on" 0))
    = Some None.
Proof.
  destruct (category_label_assigned_once Sample.gettext (Store.start Sample.gettext None)
              (Store.mkTileInfo "item-pool" "light" "A" "on" 0) [Store.Deliver Clear]
              eq_refl) as [Hfirst Hagain].
  split; [exact Hfirst|]. rewrite Hagain. reflexivity.
Defined.

(** A 500 answer to the status check does not reach the connectivity flag. *)
Lemma status_check_reaches_store_witness :
  Store.run Sample.gettext (Store.start Sample.gettext None)
    (Link.deliver (Gateway.emitted
       (Gateway.fetchApiStatus Sample.gettext Sample.forced
          (Gateway.Response 500 (Gateway.Parsed (Gateway.mkServerConfig None))))))
  = Store.start Sample.gettext None.
Proof.
  destruct (status_check_reaches_store Sample.gettext Sample.gettext Sample.forced
              (Store.start Sample.gettext None) eq_refl) as (_ & Hother & _).
  apply (Hother 500 (Gateway.mkServerConfig None)). discriminate.
Defined.

Lemma forced_state_reaches_store_witness :
  Store.state (Store.mkEntity "switch.lamp" "Lamp" "on") = "on".
Proof.
  apply (forced_state_reaches_store Sample.gettext Sample.gettext Sample.isEmpty
           Sample.forced "switch.lamp" "turn_on" 200 (Gateway.DataArray [])
           (Store.run Sample.gettext (Store.start Sample.gettext None)
              [Store.Deliver Clear; Store.Deliver (Add "switch.lamp" "Lamp" "off" "switch")])
           (Store.mkEntity "switch.lamp" "Lamp" "on"));
    try reflexivity.
  vm_compute. apply list_elem_of_here.
Defined.

Lemma fresh_install_persists_nothing_before_clear_witness :
  Store.entities (Store.settings
    (Store.run Sample.gettext (Store.start Sample.gettext None)
       [Store.Deliver (Add "light.a" "A" "on" "light"); Store.Render 0])) = None.
Proof.
  apply (fresh_install_persists_nothing_before_clear Sample.gettext
           [Store.Deliver (Add "light.a" "A" "on" "light"); Store.Render 0]).
  intros H. apply elem_of_cons in H as [H|H]; [discriminate|].
  apply elem_of_cons in H as [H|H]; [discriminate|].
  by apply elem_of_nil in H.
Defined.

End FurtherExamples.
